(** * appleseed: three model plug-ins, embedded and verified

    Shallow embedding of
    - [renderer/modeling/bsdf/orennayarbrdf.cpp]            (module [OrenNayar]),
    - [renderer/modeling/surfaceshader/voxelaosurfaceshader.cpp] (module [VoxelAO]),
    - [renderer/modeling/aov/pixelvariationaov.cpp]         (module [PixelVariation]).

    Number model.  The C++ [float] and [double] values are embedded as exact
    rationals [Q]: every arithmetic operator is the exact one, every
    comparison is the decidable comparison of [Q].  Rounding and overflow
    are outside the model.  The one division by zero the embedded code can
    perform, the quotient of the zero vector by its length in [normalize],
    yields NaN in C++; it is modelled: a computed value is an [option Q],
    [None] being NaN, every arithmetic operation with a NaN operand is NaN
    and every comparison with a NaN operand is false.  The transcendental
    functions of <cmath> and the constants derived from pi are not
    rational; they are taken as an interface ([Libm]) and the theorems hold
    for every implementation of it.

    Functions of the repository that the three files call but that live in
    other files are modelled where they are first used, each under a comment
    that says so; collaborators of the host renderer (random stream, scene,
    voxel tree, intersectors, occlusion estimators) are interfaces
    ([OrenNayar.Host], [VoxelAO.Host]).

    Out parameters and [this] are threaded explicitly: a function returns
    the new content of what the C++ writes. *)

From Stdlib Require Import QArith Qabs Lqa ZArith NArith Lia String List.
From stdpp Require Import base gmap strings list.

(** ** Scalars, vectors and spectra of appleseed.foundation *)

Module Foundation.

Local Open Scope Q_scope.

(** The C++ comparison operators on scalars, as boolean functions. *)
Definition flt (x y : Q) : bool := negb (Qle_bool y x).
Definition fge (x y : Q) : bool := Qle_bool y x.
Definition fle (x y : Q) : bool := Qle_bool x y.
Definition fne (x y : Q) : bool := negb (Qeq_bool x y).

(** [std::min(a, b)] is [(b < a) ? b : a]; [std::max(a, b)] is
    [(a < b) ? b : a]. *)
Definition fmin (a b : Q) : Q := if flt b a then b else a.
Definition fmax (a b : Q) : Q := if flt a b then b else a.

(** Modelled from the spec: [square] and [pow_int<3>] of
    foundation/math/scalar.h, the second and third powers. *)
Definition square (x : Q) : Q := x * x.
Definition pow_int3 (x : Q) : Q := x * x * x.

(** Modelled from the spec: [lerp(a, b, t)] of foundation/math/scalar.h,
    the linear interpolation between [a] and [b] at parameter [t]. *)
Definition lerp (a b t : Q) : Q := (1 - t) * a + t * b.

(** Modelled from the spec: [fit(x, min_x, max_x, min_y, max_y)] of
    foundation/math/scalar.h remaps [x] linearly from [[min_x, max_x]] to
    [[min_y, max_y]]. *)
Definition fit (x min_x max_x min_y max_y : Q) : Q :=
  let k := (x - min_x) / (max_x - min_x) in
  lerp min_y max_y k.

(** Modelled from the spec: [linearstep(a, b, x)] of
    foundation/math/scalar.h is 0 up to [a], 1 from [b] on and the linear
    transition in between. *)
Definition linearstep (a b x : Q) : Q :=
  if fle x a then 0
  else if fge x b then 1
  else (x - a) / (b - a).

(** [Vector3f] / [Vector3d]: three scalars. *)
Record Vector3 : Type := mkVector3 { vx : Q; vy : Q; vz : Q }.

(** [Vector2f]: the two uniform random numbers of a 2D sample. *)
Record Vector2 : Type := mkVector2 { s0 : Q; s1 : Q }.

Definition dot (a b : Vector3) : Q :=
  vx a * vx b + vy a * vy b + vz a * vz b.
Definition vadd (a b : Vector3) : Vector3 :=
  mkVector3 (vx a + vx b) (vy a + vy b) (vz a + vz b).
Definition vsub (a b : Vector3) : Vector3 :=
  mkVector3 (vx a - vx b) (vy a - vy b) (vz a - vz b).
Definition vscale (a : Vector3) (k : Q) : Vector3 :=
  mkVector3 (vx a * k) (vy a * k) (vz a * k).
Definition vneg (a : Vector3) : Vector3 :=
  mkVector3 (- vx a) (- vy a) (- vz a).

(** Modelled from the spec: [project(v, n)] of foundation/math/vector.h
    projects [v] onto the plane of normal [n] (the source calls the result
    the projection onto the tangent plane). *)
Definition project (v n : Vector3) : Vector3 := vsub v (vscale n (dot v n)).

(** The shading basis: normal, and the two tangent vectors. *)
Record Basis3 : Type := mkBasis3 { m_n : Vector3; m_u : Vector3; m_v : Vector3 }.

Definition get_normal (b : Basis3) : Vector3 := m_n b.

(** Modelled from the spec: [Basis3::transform_to_parent] of
    foundation/math/basis.h takes local coordinates (y along the normal) to
    the parent frame. *)
Definition transform_to_parent (b : Basis3) (w : Vector3) : Vector3 :=
  vadd (vadd (vscale (m_u b) (vx w)) (vscale (m_n b) (vy w))) (vscale (m_v b) (vz w)).

(** [Spectrum]: an ordered sequence of wavelength-bucket values. *)
Definition Spectrum : Type := list Q.

(** [s *= k], [s *= t], [s += t] and [s.set(k)] on spectra. *)
Definition spectrum_scale (s : Spectrum) (k : Q) : Spectrum :=
  map (fun x => x * k) s.
Fixpoint spectrum_mul (s t : Spectrum) : Spectrum :=
  match s, t with
  | x :: s', y :: t' => x * y :: spectrum_mul s' t'
  | _, _ => nil
  end.

(** A spectrum as the code computes it: each component is a number, or the
    NaN ([None]) a division of zero by zero leaves behind. *)
Definition SpectrumValue : Type := list (option Q).

(** A spectrum of numbers, as a computed spectrum. *)
Definition numbers (s : Spectrum) : SpectrumValue := map Some s.

(** An arithmetic expression in one computed scalar: NaN when the scalar
    is; [x >= y] on a computed scalar: false when it is NaN. *)
Definition nan_map (f : Q -> Q) (x : option Q) : option Q :=
  match x with Some q => Some (f q) | None => None end.
Definition nan_fge (x : option Q) (y : Q) : bool :=
  match x with Some q => fge q y | None => false end.

(** [s *= k] for a computed scalar [k], [s += t] and [s.set(k)] on computed
    spectra. *)
Definition scale_value (s : Spectrum) (k : option Q) : SpectrumValue :=
  map (fun x => nan_map (fun q => x * q) k) s.
Fixpoint spectrum_add (s t : SpectrumValue) : SpectrumValue :=
  match s, t with
  | Some x :: s', Some y :: t' => Some (x + y) :: spectrum_add s' t'
  | _ :: s', _ :: t' => None :: spectrum_add s' t'
  | _, _ => nil
  end.
Definition spectrum_set (s : SpectrumValue) (k : Q) : SpectrumValue :=
  map (fun _ => Some k) s.

(** Modelled from the spec: [clamp_low_in_place(s, min)] of
    foundation/image/regularspectrum.h raises every component below [min]
    to [min]; a NaN component is not below [min] and stays. *)
Definition clamp_low_in_place (s : SpectrumValue) (min : Q) : SpectrumValue :=
  map (fun x =>
         match x with
         | Some q => if flt q min then Some min else Some q
         | None => None
         end) s.


(** The half-open unit square the random stream draws from. *)
Definition unit_square (s : Vector2) : Prop :=
  (0 <= s0 s /\ s0 s < 1) /\ (0 <= s1 s /\ s1 s < 1).

(** The constants and functions that are not rational: the pi-derived
    constants of foundation/math/scalar.h and the functions of <cmath>. *)
Class Libm : Type := {
  RcpPi : Q;
  HalfPi : Q;
  RcpPiSquare : Q;
  acos : Q -> Q;
  sin : Q -> Q;
  tan : Q -> Q;
  sqrt : Q -> Q;
  (* the reciprocal of pi is positive *)
  RcpPi_positive : 0 < RcpPi
}.

(** Modelled from the spec: [norm] and [normalize] of
    foundation/math/vector.h, the Euclidean length and the vector divided
    by its length.  A vector of length zero is the zero vector, and each
    component of its quotient is 0/0: the normalized vector is NaN
    throughout, [None]. *)
Definition norm `{Libm} (v : Vector3) : Q := sqrt (dot v v).
Definition normalize `{Libm} (v : Vector3) : option Vector3 :=
  let l := norm v in
  if Qeq_bool l 0 then None
  else Some (mkVector3 (vx v / l) (vy v / l) (vz v / l)).

(** [dot] of two computed vectors: NaN when either is. *)
Definition dot_value (a b : option Vector3) : option Q :=
  match a, b with
  | Some a, Some b => Some (dot a b)
  | _, _ => None
  end.


(** A basis whose tangent vectors are orthogonal to its unit normal. *)
Definition normal_aligned (b : Basis3) : Prop :=
  dot (m_n b) (m_n b) == 1 /\ dot (m_u b) (m_n b) == 0 /\ dot (m_v b) (m_n b) == 0.



End Foundation.

(** ** The Oren-Nayar BRDF: renderer/modeling/bsdf/orennayarbrdf.cpp *)

Module OrenNayar.

Import Foundation.
Local Open Scope Q_scope.

(** Modelled from the spec: the scattering-mode bit mask of
    renderer/kernel/lighting/scatteringmode.h; [has_diffuse] tests the
    diffuse bit of an [int] mask. *)
Module ScatteringMode.

Definition ModeNone : Z := 0.
Definition Diffuse : Z := 1.
Definition Glossy : Z := 2.
Definition Specular : Z := 4.
Definition has_diffuse (modes : Z) : bool :=
  negb (Z.land modes Diffuse =? 0)%Z.

End ScatteringMode.

(** [OrenNayarBRDFInputValues]: the evaluated inputs declared by the
    constructor. *)
Record InputValues : Type := mkInputValues {
  m_reflectance : Spectrum;
  m_reflectance_multiplier : Q;
  m_roughness : Q
}.

(** [DirectShadingComponents]: the fields the BRDF writes. *)
Record DirectShadingComponents : Type := mkDSC {
  m_beauty : SpectrumValue;
  m_diffuse : SpectrumValue
}.

(** [value.set(k)]: every component of every field becomes [k]. *)
Definition dsc_set (value : DirectShadingComponents) (k : Q)
  : DirectShadingComponents :=
  mkDSC (spectrum_set (m_beauty value) k) (spectrum_set (m_diffuse value) k).

(** [Dual3f]: a direction and, optionally, its two differentials. *)
Record Dual3 : Type := mkDual3 {
  get_value : Vector3;
  m_derivatives : option (Vector3 * Vector3)
}.

(** [Dual3f(v)]: a direction without differentials. *)
Definition Dual3f (v : Vector3) : Dual3 := mkDual3 v None.

(** [BSDFSample]: input (basis, outgoing direction) and output (value,
    density, mode, incoming direction) of a sampling query. *)
Record BSDFSample : Type := mkBSDFSample {
  m_shading_basis : Basis3;
  m_outgoing : Dual3;
  m_value : DirectShadingComponents;
  m_probability : Q;
  m_mode : Z;
  m_incoming : Dual3
}.

(** What [sample] needs from the host: the random stream, the hemisphere
    mapping of foundation/math/sampling/mappings.h and the differential
    computation of [BSDFSample], which rewrites the incoming direction's
    differentials only.

    Modelled from the spec: the stream supplies uniform samples of the
    half-open unit square, and on those the cosine-weighted hemisphere
    mapping gives a direction strictly above the horizon, as [sample]
    asserts of the density it derives from it. *)
Class Host : Type := {
  SamplingContext : Type;
  split_in_place : SamplingContext -> N -> N -> SamplingContext;
  next2 : SamplingContext -> Vector2 * SamplingContext;
  sample_hemisphere_cosine : Vector2 -> Vector3;
  reflected_differentials : Basis3 -> Dual3 -> Vector3 -> option (Vector3 * Vector3);
  next2_unit_square : forall ctx, unit_square (fst (next2 ctx));
  sample_hemisphere_cosine_above :
    forall s, unit_square s -> 0 < vy (sample_hemisphere_cosine s)
}.

Definition compute_reflected_differentials `{Host} (s : BSDFSample) : BSDFSample :=
  mkBSDFSample (m_shading_basis s) (m_outgoing s) (m_value s) (m_probability s)
    (m_mode s)
    (mkDual3 (get_value (m_incoming s))
       (reflected_differentials (m_shading_basis s) (m_outgoing s)
          (get_value (m_incoming s)))).

Section BRDF.

Context `{Libm}.

(** [OrenNayarBRDFImpl::oren_nayar_qualitative]; the returned spectrum is
    the final content of the [value] reference.  [delta_cos_phi] is NaN
    when one of the two projections has length zero, and so is every
    expression it occurs in. *)
Definition oren_nayar_qualitative
    (cos_on cos_in roughness : Q) (reflectance : Spectrum)
    (reflectance_multiplier : Q) (outgoing incoming n : Vector3)
  : SpectrumValue :=
  let sigma2 := square roughness in
  let theta_r := fmin (acos cos_on) HalfPi in
  let theta_i := acos cos_in in
  let alpha := fmax theta_r theta_i in
  let beta := fmin theta_r theta_i in
  (* Project outgoing and incoming vectors onto the tangent plane. *)
  let V_perp_N := normalize (project outgoing n) in
  let I_perp_N := normalize (vsub incoming (vscale n cos_in)) in
  let delta_cos_phi := dot_value V_perp_N I_perp_N in
  let C1 := 1 - 0.5 * (sigma2 / (sigma2 + 0.33)) in
  let sigma2_009 := sigma2 / (sigma2 + 0.09) in
  let C2 :=
    0.45 * sigma2_009 *
    (if nan_fge delta_cos_phi 0
     then sin alpha
     else sin alpha - pow_int3 (2 * beta * RcpPi)) in
  let C3 :=
    0.125 * sigma2_009 * square (4 * alpha * beta * RcpPiSquare) in
  (* Direct illumination component. *)
  let value := reflectance in
  let value :=
    scale_value value
      (nan_map
         (fun delta_cos_phi =>
            reflectance_multiplier * RcpPi *
            (C1
             + delta_cos_phi * C2 * tan beta
             + (1 - Qabs delta_cos_phi) * C3 * tan (0.5 * (alpha + beta))))
         delta_cos_phi) in
  (* Add interreflection component. *)
  let r2 := reflectance in
  let r2 := spectrum_mul r2 r2 in
  let r2 :=
    scale_value r2
      (nan_map
         (fun delta_cos_phi =>
            0.17 * square reflectance_multiplier * RcpPi * cos_in * sigma2
            / (sigma2 + 0.13)
            * (1 - delta_cos_phi * square (2 * beta * RcpPi)))
         delta_cos_phi) in
  let value := spectrum_add value r2 in
  clamp_low_in_place value 0.

(** [OrenNayarBRDFImpl::evaluate].  The result pairs the returned density
    with the final content of the [value] reference, which the early
    returns leave as the caller passed it. *)
Definition evaluate
    (data : InputValues) (adjoint cosine_mult : bool)
    (geometric_normal : Vector3) (shading_basis : Basis3)
    (outgoing incoming : Vector3) (modes : Z)
    (value : DirectShadingComponents) : Q * DirectShadingComponents :=
  if negb (ScatteringMode.has_diffuse modes) then (0, value)
  else
    (* No reflection below the shading surface. *)
    let n := get_normal shading_basis in
    let cos_in := dot incoming n in
    if flt cos_in 0 then (0, value)
    else
      let value := dsc_set value 0 in
      let values := data in
      if fne (m_roughness values) 0 then
        (* No reflection below the shading surface. *)
        let cos_on := dot outgoing n in
        if flt cos_on 0 then (0, value)
        else
          let diffuse :=
            oren_nayar_qualitative cos_on cos_in (m_roughness values)
              (m_reflectance values) (m_reflectance_multiplier values)
              outgoing incoming n in
          (cos_in * RcpPi, mkDSC diffuse diffuse)
      else
        (* Revert to Lambertian when roughness is zero. *)
        let diffuse := m_reflectance values in
        let diffuse :=
          spectrum_scale diffuse (m_reflectance_multiplier values * RcpPi) in
        (cos_in * RcpPi, mkDSC (numbers diffuse) (numbers diffuse)).

(** [OrenNayarBRDFImpl::evaluate_pdf]. *)
Definition evaluate_pdf
    (data : InputValues) (geometric_normal : Vector3) (shading_basis : Basis3)
    (outgoing incoming : Vector3) (modes : Z) : Q :=
  if negb (ScatteringMode.has_diffuse modes) then 0
  else
    let n := get_normal shading_basis in
    let cos_in := dot incoming n in
    if flt cos_in 0 then 0
    else
      let values := data in
      if fne (m_roughness values) 0 then
        (* No reflection below the shading surface. *)
        let cos_on := dot outgoing n in
        if flt cos_on 0 then 0
        else cos_in * RcpPi
      else cos_in * RcpPi.

Context `{Host}.

(** The tail of [sample] shared by both roughness branches: beauty, density,
    mode, incoming direction and differentials. *)
Definition finish_sample (sample : BSDFSample) (diffuse : SpectrumValue)
    (wi incoming : Vector3) : BSDFSample :=
  compute_reflected_differentials
    (mkBSDFSample (m_shading_basis sample) (m_outgoing sample)
       (mkDSC diffuse diffuse)
       (vy wi * RcpPi)
       ScatteringMode.Diffuse
       (Dual3f incoming)).

(** The local direction [sample] draws from a sampling context. *)
Definition drawn_direction (sampling_context : SamplingContext) : Vector3 :=
  sample_hemisphere_cosine (fst (next2 (split_in_place sampling_context 2 1))).

(** The same direction in parent space, for the basis of a sample record. *)
Definition drawn_incoming (sampling_context : SamplingContext)
    (sample : BSDFSample) : Vector3 :=
  transform_to_parent (m_shading_basis sample) (drawn_direction sampling_context).

(** [OrenNayarBRDFImpl::sample]: the sampling context and the sample record
    are threaded through; an early return hands the record back as it
    was.  The source asserts that the density it writes is positive;
    [sample_probability] below proves that it is. *)
Definition sample
    (sampling_context : SamplingContext) (data : InputValues)
    (adjoint cosine_mult : bool) (modes : Z) (sample : BSDFSample)
  : SamplingContext * BSDFSample :=
  if negb (ScatteringMode.has_diffuse modes) then (sampling_context, sample)
  else
    (* Compute the incoming direction in local space. *)
    let sampling_context := split_in_place sampling_context 2 1 in
    let '(s, sampling_context) := next2 sampling_context in
    let wi := sample_hemisphere_cosine s in
    (* Transform the incoming direction to parent space. *)
    let incoming := transform_to_parent (m_shading_basis sample) wi in
    let values := data in
    if fne (m_roughness values) 0 then
      let n := get_normal (m_shading_basis sample) in
      let cos_on := dot (get_value (m_outgoing sample)) n in
      if flt cos_on 0 then (sampling_context, sample)
      else
        let cos_in := dot incoming n in
        if flt cos_in 0 then (sampling_context, sample)
        else
          let diffuse :=
            oren_nayar_qualitative cos_on cos_in (m_roughness values)
              (m_reflectance values) (m_reflectance_multiplier values)
              (get_value (m_outgoing sample)) incoming n in
          (sampling_context, finish_sample sample diffuse wi incoming)
    else
      (* Revert to Lambertian when roughness is zero. *)
      let diffuse := m_reflectance values in
      let diffuse :=
        spectrum_scale diffuse (m_reflectance_multiplier values * RcpPi) in
      (sampling_context, finish_sample sample (numbers diffuse) wi incoming).

End BRDF.

End OrenNayar.

(** ** The voxel AO surface shader:
       renderer/modeling/surfaceshader/voxelaosurfaceshader.cpp *)

Module VoxelAO.

Import Foundation.
Local Open Scope Q_scope.

(** Modelled from the spec: the property dictionary ([ParamArray]) with
    typed lookups and defaults.  A stored value is tagged with its type; a
    lookup of a missing key, or of a value of another type, yields the
    default. *)
Inductive ParamValue : Type :=
  | PSize (n : N)
  | PDouble (d : Q)
  | PString (s : string)
  | PBool (b : bool).

(** The C++ types a parameter can be read as: [size_t], [double], [string]
    and [bool]. *)
Class ParamType (T : Type) : Type := from_value : ParamValue -> option T.

#[export] Instance size_param : ParamType N :=
  fun v => match v with PSize n => Some n | _ => None end.
#[export] Instance double_param : ParamType Q :=
  fun v => match v with PDouble d => Some d | _ => None end.
#[export] Instance string_param : ParamType string :=
  fun v => match v with PString s => Some s | _ => None end.
#[export] Instance bool_param : ParamType bool :=
  fun v => match v with PBool b => Some b | _ => None end.

(** [get_required<T>(name, default)] and [get_optional<T>(name, default)]
    return the same value; they differ in what the dictionary reports about
    a missing key, which is not part of the model. *)
Definition get_required {T : Type} `{ParamType T}
    (params : gmap string ParamValue) (name : string) (default_value : T) : T :=
  match params !! name with
  | Some v => match from_value v with Some t => t | None => default_value end
  | None => default_value
  end.
Definition get_optional {T : Type} `{ParamType T}
    (params : gmap string ParamValue) (name : string) (default_value : T) : T :=
  match params !! name with
  | Some v => match from_value v with Some t => t | None => default_value end
  | None => default_value
  end.

(** Modelled from the spec: [VersionID] and [InvalidVersionID] of
    foundation/utility/version.h, a 64-bit counter and its all-ones value. *)
Definition InvalidVersionID : N := 2 ^ 64 - 1.

(** What the shader does to the outside world, in order: the error it logs,
    the structures it has the host build, the file it has the tree write. *)
Inductive Event : Type :=
  | LogError (message : string)
  | BuildVoxelTree (max_voxel_extent : Q)
  | DumpSolidLeaves (filename : string)
  | BuildVoxelTreeIntersector.

(** [ShadingRay::RayType]. *)
Record Ray : Type := mkRay {
  m_org : Vector3;
  m_dir : Vector3;
  m_tmin : Q;
  m_tmax : Q
}.

(** [ShadingPoint], as far as [evaluate] reads it. *)
Record ShadingPoint : Type := mkShadingPoint {
  get_point : Vector3;
  get_geometric_normal : Vector3;
  get_shading_basis : Basis3;
  get_ray : Ray;
  get_distance : Q
}.

(** [ShadingResult]: colour space, alpha and the three colour channels. *)
Inductive ColorSpace : Type := ColorSpaceLinearRGB | ColorSpaceSpectral.

Record ShadingResult : Type := mkShadingResult {
  m_color_space : ColorSpace;
  m_alpha : Q;
  m_color0 : Q;
  m_color1 : Q;
  m_color2 : Q
}.

(** The collaborators of the shader: scene, voxel tree, its intersector,
    the scene intersector and the two occlusion estimators. *)
Class Host : Type := {
  Scene : Type;
  get_geometry_version_id : Scene -> N;
  get_assembly_instances_version_id : Scene -> N;
  AOVoxelTree : Type;
  new_AOVoxelTree : Scene -> Q -> AOVoxelTree;
  get_max_diag_length : AOVoxelTree -> Q;
  AOVoxelTreeIntersector : Type;
  new_AOVoxelTreeIntersector : AOVoxelTree -> AOVoxelTreeIntersector;
  (* [trace(ray, solid, distance)]: [Some d] when the ray hits, with [d]
     the value written to [distance]; [None] leaves [distance] alone. *)
  trace : AOVoxelTreeIntersector -> Ray -> bool -> option Q;
  SamplingContext : Type;
  Intersector : Type;
  (* occlusion, [min_distance] and the advanced sampling context *)
  compute_fast_ambient_occlusion :
    SamplingContext -> AOVoxelTreeIntersector -> Vector3 -> Vector3 ->
    Basis3 -> Q -> N -> Q * Q * SamplingContext;
  compute_ambient_occlusion :
    SamplingContext -> Intersector -> Vector3 -> Vector3 ->
    Basis3 -> Q -> N -> ShadingPoint -> Q * SamplingContext
}.

(** The occlusion strategy [evaluate] takes: the branch of its three-way
    test on the clearance, with the blend factor in the third. *)
Inductive Mode : Type :=
  | FastMode
  | ClassicMode
  | BlendMode (k : Q).

Section Shader.

Context `{Host}.

(** The data members of [VoxelAOSurfaceShader]. *)
Record Shader : Type := mkShader {
  m_name : string;
  m_samples : N;
  m_max_distance : Q;
  m_max_voxel_extent : Q;
  m_low_threshold : Q;
  m_high_threshold : Q;
  m_output_filename : string;
  m_enable_diagnostics : bool;
  m_last_geometry_version_id : N;
  m_last_asm_inst_version_id : N;
  m_voxel_tree : option AOVoxelTree;
  m_voxel_tree_intersector : option AOVoxelTreeIntersector;
  m_diag_length : Q;
  m_classic_threshold : Q;
  m_fast_threshold : Q;
  m_half_samples : N
}.

Definition DefaultLowThreshold : Q := 2.0.
Definition DefaultHighThreshold : Q := 4.0.

(** [extract_parameters()]: the shader with its seven configuration members
    assigned, and the events of the call. *)
Definition extract_parameters (m_params : gmap string ParamValue) (this : Shader)
  : Shader * list Event :=
  let samples := get_required m_params "samples" 16%N in
  let max_distance := get_required m_params "max_distance" 1.0 in
  let max_voxel_extent := get_required m_params "max_voxel_extent" 0.01 in
  let low_threshold := get_optional m_params "low_threshold" DefaultLowThreshold in
  let high_threshold := get_optional m_params "high_threshold" DefaultHighThreshold in
  let output_filename := get_optional m_params "output_filename" EmptyString in
  let enable_diagnostics := get_optional m_params "enable_diagnostics" false in
  let '(low_threshold, high_threshold, log) :=
    if flt low_threshold 0.0 || flt high_threshold 0.0
       || flt high_threshold low_threshold
    then (DefaultLowThreshold, DefaultHighThreshold,
          [LogError "invalid low and high threshold values, switching back to default %f and %f"])
    else (low_threshold, high_threshold, []) in
  (mkShader (m_name this) samples max_distance max_voxel_extent
     low_threshold high_threshold output_filename enable_diagnostics
     (m_last_geometry_version_id this) (m_last_asm_inst_version_id this)
     (m_voxel_tree this) (m_voxel_tree_intersector this)
     (m_diag_length this) (m_classic_threshold this) (m_fast_threshold this)
     (m_half_samples this),
   log).

(** The constructor [VoxelAOSurfaceShader(name, params)].  [memory] is the
    storage the object is built in: the members the constructor does not
    initialise keep what it holds. *)
Definition VoxelAOSurfaceShader
    (name : string) (params : gmap string ParamValue) (memory : Shader)
  : Shader * list Event :=
  extract_parameters params
    (mkShader name (m_samples memory) (m_max_distance memory)
       (m_max_voxel_extent memory) (m_low_threshold memory)
       (m_high_threshold memory) (m_output_filename memory)
       (m_enable_diagnostics memory)
       InvalidVersionID InvalidVersionID None None
       (m_diag_length memory) (m_classic_threshold memory)
       (m_fast_threshold memory) (m_half_samples memory)).

(** [on_frame_begin(project)], on the scene of the project: the new state
    of the shader and the events of the call. *)
Definition on_frame_begin (scene : Scene) (s : Shader) : Shader * list Event :=
  (* Rebuild the voxel tree if either the scene geometry or the
     transformations of the assembly instances have changed. *)
  if negb (get_geometry_version_id scene =? m_last_geometry_version_id s)%N
     || negb (get_assembly_instances_version_id scene =? m_last_asm_inst_version_id s)%N
  then
    let last_geometry_version_id := get_geometry_version_id scene in
    let last_asm_inst_version_id := get_assembly_instances_version_id scene in
    (* Build the voxel tree. *)
    let voxel_tree := new_AOVoxelTree scene (m_max_voxel_extent s) in
    (* Write the voxel tree to disk, if asked to. *)
    let dump :=
      if negb (String.eqb (m_output_filename s) EmptyString)
      then [DumpSolidLeaves (m_output_filename s)] else [] in
    (* Precompute the world space thresholds. *)
    let diag_length := get_max_diag_length voxel_tree * (1.0 + 1.0e-5) in
    let classic_threshold := m_low_threshold s * diag_length in
    let fast_threshold := m_high_threshold s * diag_length in
    let half_samples := (m_samples s / 2)%N in
    let half_samples := if (half_samples <? 1)%N then 1%N else half_samples in
    (* Create the voxel tree intersector. *)
    let voxel_tree_intersector := new_AOVoxelTreeIntersector voxel_tree in
    (mkShader (m_name s) (m_samples s) (m_max_distance s) (m_max_voxel_extent s)
       (m_low_threshold s) (m_high_threshold s) (m_output_filename s)
       (m_enable_diagnostics s)
       last_geometry_version_id last_asm_inst_version_id
       (Some voxel_tree) (Some voxel_tree_intersector)
       diag_length classic_threshold fast_threshold half_samples,
     [BuildVoxelTree (m_max_voxel_extent s)] ++ dump ++ [BuildVoxelTreeIntersector])
  else (s, []).

(** The first half of [evaluate]: back off along the reversed incoming ray,
    measure the clearance along the geometric normal, shift the origin.
    [None] is the failed [assert(hit)]. *)
Definition measure_clearance (s : Shader)
    (voxel_tree_intersector : AOVoxelTreeIntersector)
    (shading_point : ShadingPoint) : option (Vector3 * Q) :=
  let geometric_normal := get_geometric_normal shading_point in
  let safe_origin := get_point shading_point in
  (* Find the exit point of the hierarchy along the incoming ray. *)
  let reverse_ray :=
    mkRay safe_origin (vneg (m_dir (get_ray shading_point))) 0
      (get_distance shading_point) in
  match trace voxel_tree_intersector reverse_ray false with
  | None => None
  | Some backtrack =>
    let safe_origin :=
      vadd safe_origin (vscale (m_dir reverse_ray) (backtrack * (1.0 + 1.0e-5))) in
    (* Measure the clearance distance along the geometric normal. *)
    let normal_ray := mkRay safe_origin geometric_normal 0 (m_fast_threshold s) in
    let clearance :=
      match trace voxel_tree_intersector normal_ray true with
      | Some d => d
      | None => m_fast_threshold s
      end in
    (* Shift the origin along the geometric normal. *)
    let safe_origin := vadd safe_origin (vscale geometric_normal (m_diag_length s)) in
    Some (safe_origin, clearance)
  end.

(** The three-way test of [evaluate] on the clearance. *)
Definition select_mode (s : Shader) (clearance : Q) : Mode :=
  if fge clearance (m_fast_threshold s) then FastMode
  else if flt clearance (m_classic_threshold s) then ClassicMode
  else BlendMode (linearstep (m_classic_threshold s) (m_fast_threshold s) clearance).

(** The grey value [evaluate] ends with. *)
Definition accessibility_result (occlusion : Q) : ShadingResult :=
  let accessibility := 1 - occlusion in
  mkShadingResult ColorSpaceLinearRGB 1 accessibility accessibility accessibility.

(** [evaluate]: the advanced sampling context and the shading result.
    [None] is a failed assertion (no tree, no intersector, no hit). *)
Definition evaluate (s : Shader)
    (sampling_context : SamplingContext) (shading_context_intersector : Intersector)
    (shading_point : ShadingPoint)
  : option (SamplingContext * ShadingResult) :=
  match m_voxel_tree s, m_voxel_tree_intersector s with
  | Some _, Some voxel_tree_intersector =>
    match measure_clearance s voxel_tree_intersector shading_point with
    | None => None
    | Some (safe_origin, clearance) =>
      match select_mode s clearance with
      | FastMode =>
        (* Clearance is high: use fast mode. *)
        let '(occlusion, min_distance, sampling_context) :=
          compute_fast_ambient_occlusion sampling_context voxel_tree_intersector
            safe_origin (get_geometric_normal shading_point)
            (get_shading_basis shading_point) (m_max_distance s) (m_samples s) in
        if m_enable_diagnostics s
        then Some (sampling_context, mkShadingResult ColorSpaceLinearRGB 1 0 0 1)
        else Some (sampling_context, accessibility_result occlusion)
      | ClassicMode =>
        (* Clearance is low: use classic mode. *)
        let '(occlusion, sampling_context) :=
          compute_ambient_occlusion sampling_context shading_context_intersector
            (get_point shading_point) (get_geometric_normal shading_point)
            (get_shading_basis shading_point) (m_max_distance s) (m_samples s)
            shading_point in
        if m_enable_diagnostics s
        then Some (sampling_context, mkShadingResult ColorSpaceLinearRGB 1 1 1 0)
        else Some (sampling_context, accessibility_result occlusion)
      | BlendMode k =>
        (* Clearance is intermediate: blend between classic and fast modes. *)
        let '(classic_occlusion, sampling_context) :=
          compute_ambient_occlusion sampling_context shading_context_intersector
            (get_point shading_point) (get_geometric_normal shading_point)
            (get_shading_basis shading_point) (m_max_distance s) (m_half_samples s)
            shading_point in
        let '(fast_occlusion, min_distance, sampling_context) :=
          compute_fast_ambient_occlusion sampling_context voxel_tree_intersector
            safe_origin (get_geometric_normal shading_point)
            (get_shading_basis shading_point) (m_max_distance s) (m_half_samples s) in
        let occlusion := k * fast_occlusion + (1 - k) * classic_occlusion in
        if m_enable_diagnostics s
        then Some (sampling_context, mkShadingResult ColorSpaceLinearRGB 1 (1 - k) 0 k)
        else Some (sampling_context, accessibility_result occlusion)
      end
    end
  | _, _ => None
  end.

(** The two rays [evaluate] traces against the voxel tree: the reversed
    incoming ray, and the ray along the geometric normal from the origin
    backed off by [backtrack]. *)
Definition exit_ray (shading_point : ShadingPoint) : Ray :=
  mkRay (get_point shading_point) (vneg (m_dir (get_ray shading_point))) 0
    (get_distance shading_point).
Definition backed_off_origin (shading_point : ShadingPoint) (backtrack : Q) : Vector3 :=
  vadd (get_point shading_point)
    (vscale (vneg (m_dir (get_ray shading_point))) (backtrack * (1.0 + 1.0e-5))).
Definition normal_ray (s : Shader) (shading_point : ShadingPoint) (backtrack : Q) : Ray :=
  mkRay (backed_off_origin shading_point backtrack)
    (get_geometric_normal shading_point) 0 (m_fast_threshold s).

(** A colour channel between 0 and 1. *)
Definition unit_channel (c : Q) : Prop := 0 <= c /\ c <= 1.

End Shader.

End VoxelAO.

(** ** The pixel variation AOV: renderer/modeling/aov/pixelvariationaov.cpp *)

Module PixelVariation.

Import Foundation.
Local Open Scope Q_scope.

(** [Color3f]: [color[0]], [color[1]], [color[2]]. *)
Record Color3f : Type := mkColor3f { c0 : Q; c1 : Q; c2 : Q }.

(** [lerp(a, b, t)] on colours works channel by channel. *)
Definition lerp_color (a b : Color3f) (t : Q) : Color3f :=
  mkColor3f (lerp (c0 a) (c0 b) t) (lerp (c1 a) (c1 b) t) (lerp (c2 a) (c2 b) t).

Definition Blue : Color3f := mkColor3f 0.0 0.0 1.0.
Definition Red : Color3f := mkColor3f 1.0 0.0 0.0.

(** [Vector2u] and [AABB2u]: pixel coordinates and the crop window, both
    bounds inclusive.  Coordinates are [size_t] in the source; a crop window
    lies inside an image, far below the width of [size_t], so the loop
    counters never wrap and [nat] stands for them. *)
Record Vector2u : Type := mkVector2u { x : nat; y : nat }.
Record AABB2u : Type := mkAABB2u { min : Vector2u; max : Vector2u }.

(** [Frame], as far as the AOV reads it. *)
Record Frame : Type := mkFrame { get_crop_window : AABB2u }.

(** Modelled from the spec: the image buffer, addressable by integer pixel
    coordinates, with per-pixel get and set of a colour.  A pixel that was
    never stored reads as black. *)
Definition get_pixel (image : gmap (nat * nat) Color3f) (x y : nat) : Color3f :=
  default (mkColor3f 0 0 0) (image !! (x, y)).
Definition set_pixel (image : gmap (nat * nat) Color3f) (x y : nat) (color : Color3f)
  : gmap (nat * nat) Color3f :=
  <[(x, y) := color]> image.

(** The values [i = lo; i <= hi; ++i] runs through. *)
Definition range (lo hi : nat) : list nat := seq lo (S hi - lo).

(** The loop nest of the source, rows outside and columns inside, over the
    crop window; [body x y] transforms the loop state. *)
Definition for_each_pixel {A : Type} (crop_window : AABB2u)
    (body : nat -> nat -> A -> A) (init : A) : A :=
  fold_left
    (fun acc y =>
       fold_left (fun acc x => body x y acc)
         (range (x (min crop_window)) (x (max crop_window))) acc)
    (range (y (min crop_window)) (y (max crop_window))) init.

(** The first loop nest of [post_process_image]: find the maximum
    variation. *)
Definition find_max_variation (crop_window : AABB2u)
    (m_image : gmap (nat * nat) Color3f) : Q :=
  for_each_pixel crop_window
    (fun x y max_variation =>
       let color := get_pixel m_image x y in
       fmax (c0 color) max_variation)
    0.0.

(** [PixelVariationAOV::post_process_image], on the image of the AOV. *)
Definition post_process_image (frame : Frame)
    (m_image : gmap (nat * nat) Color3f) : gmap (nat * nat) Color3f :=
  let crop_window := get_crop_window frame in
  (* Find the maximum variation. *)
  let max_variation := find_max_variation crop_window m_image in
  (* Normalize if a maximum was found. *)
  if fne max_variation 0.0 then
    for_each_pixel crop_window
      (fun x y m_image =>
         let color := get_pixel m_image x y in
         let c := fit (c0 color) 0.0 max_variation 0.0 1.0 in
         set_pixel m_image x y (lerp_color Blue Red c))
      m_image
  else
    for_each_pixel crop_window
      (fun x y m_image => set_pixel m_image x y Blue)
      m_image.

(** The pixels the loop nest visits, in the order it visits them. *)
Definition window_pixels (crop_window : AABB2u) : list (nat * nat) :=
  range (y (min crop_window)) (y (max crop_window)) ≫= fun py =>
  (fun px => (px, py)) <$> range (x (min crop_window)) (x (max crop_window)).

(** A pixel lies in the crop window. *)
Definition in_window (crop_window : AABB2u) (px py : nat) : Prop :=
  (x (min crop_window) <= px <= x (max crop_window))%nat /\
  (y (min crop_window) <= py <= y (max crop_window))%nat.

(** Two colours with equal channels. *)
Definition color_eq (a b : Color3f) : Prop :=
  c0 a == c0 b /\ c1 a == c1 b /\ c2 a == c2 b.

End PixelVariation.

(** ** Concrete collaborators and inputs, to run the model *)

Module Examples.

Import Foundation.
Local Open Scope Q_scope.

(** A rational implementation of [Libm]: the constants are decimal
    truncations, the functions low-order approximations (the square root
    is one Heron step from 1, exact at 0 and at 1).  It serves to run the
    model on concrete inputs; no theorem depends on its accuracy. *)
Definition libm_rational : Libm := {|
  RcpPi := 0.318309886;
  HalfPi := 1.570796327;
  RcpPiSquare := 0.101321184;
  acos := fun x => 1.570796327 - x;
  sin := fun x => x;
  tan := fun x => x;
  sqrt := fun x => if Qeq_bool x 0 then 0 else (1 + x) / 2;
  RcpPi_positive := eq_refl
|}.

(** A coordinate of a sample, brought into the half-open unit interval. *)
Definition unit_coordinate (x : Q) : Q :=
  if fle 0 x && flt x 1 then x else 0.

(** A host for [OrenNayar.sample]: the sampling context is the list of the
    2D samples still to come, each read into the half-open unit square;
    the hemisphere mapping keeps the direction above the horizon and sends
    [(0, 0)] to the pole, and no differentials are tracked. *)
Definition brdf_host : OrenNayar.Host := {|
  OrenNayar.SamplingContext := list Vector2;
  OrenNayar.split_in_place := fun ctx _ _ => ctx;
  OrenNayar.next2 := fun ctx =>
    match ctx with
    | s :: rest => (mkVector2 (unit_coordinate (s0 s)) (unit_coordinate (s1 s)), rest)
    | [] => (mkVector2 0 0, [])
    end;
  OrenNayar.sample_hemisphere_cosine := fun s => mkVector3 (s1 s) (1 - s1 s) 0;
  OrenNayar.reflected_differentials := fun _ _ _ => None;
  OrenNayar.next2_unit_square :=
    ltac:(assert (forall x, 0 <= unit_coordinate x /\ unit_coordinate x < 1)
            by (intros x; unfold unit_coordinate, fle, flt;
                destruct (Qle_bool 0 x) eqn:E1;
                destruct (Qle_bool 1 x) eqn:E2; simpl; try (split; lra);
                split; [apply Qle_bool_iff, E1
                       |apply Qnot_le_lt; intros L;
                        apply Qle_bool_iff in L; congruence]);
          intros [|s rest]; unfold unit_square; simpl;
          [repeat split; lra | split; auto]);
  OrenNayar.sample_hemisphere_cosine_above :=
    ltac:(intros s (_ & _ & Hs); simpl; lra)
|}.

Definition tilted : Vector3 := mkVector3 0 1 1.

(** The unit vectors, and the basis with normal [up]. *)
Definition up : Vector3 := mkVector3 0 1 0.
Definition down : Vector3 := mkVector3 0 (-1) 0.
Definition right : Vector3 := mkVector3 1 0 0.
Definition front : Vector3 := mkVector3 0 0 1.
Definition basis_up : Basis3 := mkBasis3 up right front.

(** Material inputs: smooth, rough, and smooth with a negative multiplier. *)
Definition smooth_values : OrenNayar.InputValues :=
  OrenNayar.mkInputValues [0.5; 0.25] 1 0.
Definition rough_values : OrenNayar.InputValues :=
  OrenNayar.mkInputValues [0.5; 0.25] 1 0.1.


(** A zero-initialised value record and a fresh sample record whose
    outgoing direction is [o]. *)
Definition zero_value : OrenNayar.DirectShadingComponents :=
  OrenNayar.mkDSC [Some 0; Some 0] [Some 0; Some 0].
Definition fresh_sample (o : Vector3) : OrenNayar.BSDFSample :=
  OrenNayar.mkBSDFSample basis_up (OrenNayar.Dual3f o) zero_value 0
    OrenNayar.ScatteringMode.ModeNone (OrenNayar.Dual3f (mkVector3 0 0 0)).

(** A host for the voxel AO shader: a scene is its two version counters and
    the diagonal length its voxel tree will have; the tree and the
    intersector are that length; the exit-point trace hits at distance 0
    and the normal ray hits nothing; the occlusion estimators return 0 and
    count the calls in the sampling context. *)
Definition ao_host : VoxelAO.Host := {|
  VoxelAO.Scene := N * N * Q;
  VoxelAO.get_geometry_version_id := fun scene => fst (fst scene);
  VoxelAO.get_assembly_instances_version_id := fun scene => snd (fst scene);
  VoxelAO.AOVoxelTree := Q;
  VoxelAO.new_AOVoxelTree := fun scene _ => snd scene;
  VoxelAO.get_max_diag_length := fun tree => tree;
  VoxelAO.AOVoxelTreeIntersector := Q;
  VoxelAO.new_AOVoxelTreeIntersector := fun tree => tree;
  VoxelAO.trace := fun _ _ solid => if solid then None else Some 0;
  VoxelAO.SamplingContext := nat;
  VoxelAO.Intersector := unit;
  VoxelAO.compute_fast_ambient_occlusion := fun ctx _ _ _ _ _ _ => (0, 0, S ctx);
  VoxelAO.compute_ambient_occlusion := fun ctx _ _ _ _ _ _ _ => (0, S ctx)
|}.

(** Shader parameters: the two thresholds equal, and the two thresholds in
    the wrong order. *)
Definition equal_thresholds_params : gmap string VoxelAO.ParamValue :=
  <["low_threshold" := VoxelAO.PDouble 2]>
    (<["high_threshold" := VoxelAO.PDouble 2]> ∅).
Definition swapped_thresholds_params : gmap string VoxelAO.ParamValue :=
  <["low_threshold" := VoxelAO.PDouble 5]>
    (<["high_threshold" := VoxelAO.PDouble 3]>
       (<["samples" := VoxelAO.PSize 1]> ∅)).

(** The storage a shader is constructed in, with whatever it holds. *)
Definition stale_memory : @VoxelAO.Shader ao_host :=
  @VoxelAO.mkShader ao_host "stale" 7 7 7 7 7 "stale" true 7 7
    (Some (7 : @VoxelAO.AOVoxelTree ao_host))
    (Some (7 : @VoxelAO.AOVoxelTreeIntersector ao_host)) 7 7 7 7.

(** A scene with version counters 1 and 1 whose voxel tree has diagonal
    length 1. *)
Definition unit_scene : @VoxelAO.Scene ao_host := (1%N, 1%N, 1).

(** A scene whose two version counters both hold the sentinel. *)
Definition sentinel_scene : @VoxelAO.Scene ao_host :=
  (VoxelAO.InvalidVersionID, VoxelAO.InvalidVersionID, 1).

(** Shader parameters with valid thresholds. *)
Definition valid_thresholds_params : gmap string VoxelAO.ParamValue :=
  <["low_threshold" := VoxelAO.PDouble 1]>
    (<["high_threshold" := VoxelAO.PDouble 3]> ∅).

(** A shading point at the origin, hit from above. *)
Definition origin_point : VoxelAO.ShadingPoint :=
  VoxelAO.mkShadingPoint (mkVector3 0 0 0) up basis_up
    (VoxelAO.mkRay (mkVector3 0 1 0) down 0 1) 1.

(** The shader built from an empty dictionary, before and after its first
    frame on [unit_scene]; and the one built from equal thresholds, after
    its first frame. *)
Definition fresh : @VoxelAO.Shader ao_host :=
  fst (@VoxelAO.VoxelAOSurfaceShader ao_host "ao" ∅ stale_memory).
Definition built : @VoxelAO.Shader ao_host :=
  fst (@VoxelAO.on_frame_begin ao_host unit_scene fresh).
Definition flat : @VoxelAO.Shader ao_host :=
  fst (@VoxelAO.on_frame_begin ao_host unit_scene
         (fst (@VoxelAO.VoxelAOSurfaceShader ao_host "ao" equal_thresholds_params
                 stale_memory))).

(** A variance image of one row: variations 0, 0.5 and 1.0 in the crop
    window (columns 0 to 2), and a fourth pixel outside of it. *)
Definition variance_image : gmap (nat * nat) PixelVariation.Color3f :=
  <[(0, 0)%nat := PixelVariation.mkColor3f 0 0 0]>
    (<[(1, 0)%nat := PixelVariation.mkColor3f 0.5 0.5 0.5]>
       (<[(2, 0)%nat := PixelVariation.mkColor3f 1.0 1.0 1.0]>
          (<[(3, 0)%nat := PixelVariation.mkColor3f 9 9 9]> ∅))).
Definition row_frame : PixelVariation.Frame :=
  PixelVariation.mkFrame
    (PixelVariation.mkAABB2u (PixelVariation.mkVector2u 0 0)
       (PixelVariation.mkVector2u 2 0)).

(** A frame whose crop window is empty: its maximum lies left of its
    minimum. *)
Definition empty_frame : PixelVariation.Frame :=
  PixelVariation.mkFrame
    (PixelVariation.mkAABB2u (PixelVariation.mkVector2u 2 0)
       (PixelVariation.mkVector2u 1 0)).

(** [variance_image] with the variations of the window doubled, with the
    same variation 0.5 throughout the window, and with other second and
    third channels. *)
Definition doubled_image : gmap (nat * nat) PixelVariation.Color3f :=
  <[(0, 0)%nat := PixelVariation.mkColor3f 0 0 0]>
    (<[(1, 0)%nat := PixelVariation.mkColor3f 1.0 0.5 0.5]>
       (<[(2, 0)%nat := PixelVariation.mkColor3f 2.0 1.0 1.0]>
          (<[(3, 0)%nat := PixelVariation.mkColor3f 9 9 9]> ∅))).
Definition uniform_image : gmap (nat * nat) PixelVariation.Color3f :=
  <[(0, 0)%nat := PixelVariation.mkColor3f 0.5 0 0]>
    (<[(1, 0)%nat := PixelVariation.mkColor3f 0.5 0 0]>
       (<[(2, 0)%nat := PixelVariation.mkColor3f 0.5 0 0]> ∅)).
Definition recoloured_image : gmap (nat * nat) PixelVariation.Color3f :=
  <[(0, 0)%nat := PixelVariation.mkColor3f 0 7 7]>
    (<[(1, 0)%nat := PixelVariation.mkColor3f 0.5 7 7]>
       (<[(2, 0)%nat := PixelVariation.mkColor3f 1.0 7 7]> ∅)).

End Examples.

(** * Properties *)

(** ** The comparison operators *)

Section Comparisons.

Import Foundation.
Local Open Scope Q_scope.

Lemma flt_true (x y : Q) : flt x y = true <-> x < y.
Proof.
  unfold flt. rewrite negb_true_iff. split.
  - intros E. apply Qnot_le_lt. intros L. apply Qle_bool_iff in L. congruence.
  - intros L. destruct (Qle_bool y x) eqn:E; [|reflexivity].
    apply Qle_bool_iff in E. lra.
Qed.

Lemma flt_false (x y : Q) : flt x y = false <-> y <= x.
Proof.
  unfold flt. rewrite negb_false_iff. apply Qle_bool_iff.
Qed.

Lemma fge_true (x y : Q) : fge x y = true <-> y <= x.
Proof. apply Qle_bool_iff. Qed.

Lemma fge_false (x y : Q) : fge x y = false <-> x < y.
Proof.
  unfold fge. split.
  - intros E. apply Qnot_le_lt. intros L. apply Qle_bool_iff in L. congruence.
  - intros L. destruct (Qle_bool y x) eqn:E; [|reflexivity].
    apply Qle_bool_iff in E. lra.
Qed.

Lemma fle_true (x y : Q) : fle x y = true <-> x <= y.
Proof. apply Qle_bool_iff. Qed.

Lemma fle_false (x y : Q) : fle x y = false <-> y < x.
Proof. apply (fge_false y x). Qed.

Lemma fne_true (x y : Q) : fne x y = true <-> ~ x == y.
Proof.
  unfold fne. rewrite negb_true_iff. split.
  - apply Qeq_bool_neq.
  - intros N. destruct (Qeq_bool x y) eqn:E; [|reflexivity].
    apply Qeq_bool_iff in E. contradiction.
Qed.

Lemma fne_false (x y : Q) : fne x y = false <-> x == y.
Proof.
  unfold fne. rewrite negb_false_iff. apply Qeq_bool_iff.
Qed.

(** [std::max] returns one of its arguments, the larger one. *)
Lemma fmax_cases (a b : Q) :
  (a < b /\ fmax a b = b) \/ (b <= a /\ fmax a b = a).
Proof.
  unfold fmax. destruct (flt a b) eqn:E.
  - left. split; [apply flt_true, E | reflexivity].
  - right. split; [apply flt_false, E | reflexivity].
Qed.





(** Scaling by NaN, adding to NaN and clamping NaN give NaN. *)
Lemma scale_value_nan (s : Spectrum) :
  Forall (fun v => v = None) (scale_value s None).
Proof. unfold scale_value. induction s; simpl; constructor; auto. Qed.

Lemma spectrum_add_nan (s t : SpectrumValue) :
  Forall (fun v => v = None) s -> Forall (fun v => v = None) (spectrum_add s t).
Proof.
  intros Hs. revert t.
  induction Hs as [|x s -> Hs IH]; intros [|y t]; simpl; constructor; auto.
Qed.

Lemma clamp_low_in_place_nan (s : SpectrumValue) (lo : Q) :
  Forall (fun v => v = None) s ->
  Forall (fun v => v = None) (clamp_low_in_place s lo).
Proof.
  unfold clamp_low_in_place.
  induction 1 as [|x s -> Hs IH]; simpl; constructor; auto.
Qed.


Lemma normalize_nan `{Libm} (v : Vector3) :
  norm v == 0 -> normalize v = None.
Proof.
  intros Hz. unfold normalize.
  apply Qeq_bool_iff in Hz. rewrite Hz. reflexivity.
Qed.

End Comparisons.

(** ** The Oren-Nayar BRDF *)

Section OrenNayarProperties.

Import Foundation OrenNayar.
Local Open Scope Q_scope.

Context `{Libm} `{Host}.

(** The three early returns of [evaluate], one by one. *)
Lemma evaluate_no_diffuse data adjoint cosine_mult gn basis outgoing incoming modes value :
  ScatteringMode.has_diffuse modes = false ->
  evaluate data adjoint cosine_mult gn basis outgoing incoming modes value = (0, value).
Proof. intros Hd. unfold evaluate. rewrite Hd. reflexivity. Qed.

Lemma evaluate_incoming_below data adjoint cosine_mult gn basis outgoing incoming modes value :
  ScatteringMode.has_diffuse modes = true ->
  dot incoming (get_normal basis) < 0 ->
  evaluate data adjoint cosine_mult gn basis outgoing incoming modes value = (0, value).
Proof.
  intros Hd Hin. unfold evaluate. rewrite Hd. simpl.
  apply flt_true in Hin. rewrite Hin. reflexivity.
Qed.

Lemma evaluate_outgoing_below data adjoint cosine_mult gn basis outgoing incoming modes value :
  ScatteringMode.has_diffuse modes = true ->
  0 <= dot incoming (get_normal basis) ->
  ~ m_roughness data == 0 ->
  dot outgoing (get_normal basis) < 0 ->
  evaluate data adjoint cosine_mult gn basis outgoing incoming modes value
  = (0, dsc_set value 0).
Proof.
  intros Hd Hin Hr Hon. unfold evaluate. rewrite Hd. simpl.
  apply flt_false in Hin. apply fne_true in Hr. apply flt_true in Hon.
  rewrite Hin, Hr, Hon. reflexivity.
Qed.

(** The Lambertian branch of [evaluate]: roughness zero, incoming direction
    not below the surface; the outgoing direction plays no part. *)
Lemma evaluate_lambertian data adjoint cosine_mult gn basis outgoing incoming modes value :
  ScatteringMode.has_diffuse modes = true ->
  0 <= dot incoming (get_normal basis) ->
  m_roughness data == 0 ->
  evaluate data adjoint cosine_mult gn basis outgoing incoming modes value
  = (dot incoming (get_normal basis) * RcpPi,
     let diffuse :=
       spectrum_scale (m_reflectance data) (m_reflectance_multiplier data * RcpPi) in
     mkDSC (numbers diffuse) (numbers diffuse)).
Proof.
  intros Hd Hin Hr. unfold evaluate. rewrite Hd. simpl.
  apply flt_false in Hin. apply fne_false in Hr.
  rewrite Hin, Hr. reflexivity.
Qed.

(** The rough branch of [evaluate]: both directions not below the surface. *)
Lemma evaluate_rough data adjoint cosine_mult gn basis outgoing incoming modes value :
  ScatteringMode.has_diffuse modes = true ->
  0 <= dot incoming (get_normal basis) ->
  ~ m_roughness data == 0 ->
  0 <= dot outgoing (get_normal basis) ->
  evaluate data adjoint cosine_mult gn basis outgoing incoming modes value
  = (dot incoming (get_normal basis) * RcpPi,
     let diffuse :=
       oren_nayar_qualitative (dot outgoing (get_normal basis))
         (dot incoming (get_normal basis)) (m_roughness data)
         (m_reflectance data) (m_reflectance_multiplier data)
         outgoing incoming (get_normal basis) in
     mkDSC diffuse diffuse).
Proof.
  intros Hd Hin Hr Hon. unfold evaluate. rewrite Hd. simpl.
  apply flt_false in Hin. apply fne_true in Hr. apply flt_false in Hon.
  rewrite Hin, Hr, Hon. reflexivity.
Qed.


(** With a direction along the normal, a projection has length zero and
    every component of the output is NaN. *)
Lemma oren_nayar_qualitative_nan
    cos_on roughness reflectance reflectance_multiplier outgoing incoming n :
  norm (project outgoing n) == 0 \/ norm (project incoming n) == 0 ->
  Forall (fun v => v = None)
    (oren_nayar_qualitative cos_on (dot incoming n) roughness reflectance
       reflectance_multiplier outgoing incoming n).
Proof.
  intros Hnan. unfold oren_nayar_qualitative.
  assert (dot_value (normalize (project outgoing n))
            (normalize (vsub incoming (vscale n (dot incoming n)))) = None) as ->.
  { destruct Hnan as [Hz|Hz].
    - rewrite (normalize_nan _ Hz). reflexivity.
    - unfold project in Hz. rewrite (normalize_nan _ Hz).
      destruct (normalize _); reflexivity. }
  cbn [nan_map].
  apply clamp_low_in_place_nan, spectrum_add_nan, scale_value_nan.
Qed.

(** C1 (amended).  [evaluate] returns density zero, with the value record
    left as passed in or zeroed, when diffuse scattering is not requested,
    or the incoming direction is below the surface, or the roughness is
    non-zero and the outgoing direction is below the surface. *)
Theorem evaluate_rejected_is_zero
    data adjoint cosine_mult gn basis outgoing incoming modes value :
  ScatteringMode.has_diffuse modes = false \/
  dot incoming (get_normal basis) < 0 \/
  (~ m_roughness data == 0 /\ dot outgoing (get_normal basis) < 0) ->
  let r := evaluate data adjoint cosine_mult gn basis outgoing incoming modes value in
  fst r = 0 /\ (snd r = value \/ snd r = dsc_set value 0).
Proof.
  intros Hrej r. subst r.
  destruct (ScatteringMode.has_diffuse modes) eqn:Hd.
  2:{ rewrite evaluate_no_diffuse by exact Hd. simpl. auto. }
  destruct (Qlt_le_dec (dot incoming (get_normal basis)) 0) as [Hin|Hin].
  { rewrite evaluate_incoming_below by assumption. simpl. auto. }
  destruct Hrej as [Hno|[Hlt|[Hr Hon]]]; [discriminate | lra |].
  rewrite evaluate_outgoing_below by assumption. simpl. auto.
Qed.

(** C2.  With diffuse mode requested, both cosines non-negative and
    roughness zero, the value returned by [evaluate] is a spectrum of
    numbers, component by component reflectance * reflectance_multiplier
    / pi, where pi is the number whose reciprocal the constant [RcpPi]
    is. *)
Theorem evaluate_roughness_zero_lambertian
    data adjoint cosine_mult gn basis outgoing incoming modes value (pi : Q) :
  ScatteringMode.has_diffuse modes = true ->
  0 <= dot incoming (get_normal basis) ->
  0 <= dot outgoing (get_normal basis) ->
  m_roughness data == 0 ->
  RcpPi == / pi ->
  let r := evaluate data adjoint cosine_mult gn basis outgoing incoming modes value in
  (exists values : Spectrum,
     m_diffuse (snd r) = numbers values /\
     Forall2 (fun v refl => v == refl * m_reflectance_multiplier data / pi)
       values (m_reflectance data))
  /\ m_beauty (snd r) = m_diffuse (snd r).
Proof.
  intros Hd Hin _ Hr Hpi r. subst r.
  rewrite evaluate_lambertian by assumption. simpl. split; [|reflexivity].
  eexists. split; [reflexivity|].
  unfold spectrum_scale.
  induction (m_reflectance data) as [|x s IH]; simpl; constructor; [|exact IH].
  rewrite Hpi. unfold Qdiv. ring.
Qed.

(** C3.  [evaluate_pdf] returns the density [evaluate] returns on the same
    arguments. *)
Theorem evaluate_pdf_consistent
    data adjoint cosine_mult gn basis outgoing incoming modes value :
  evaluate_pdf data gn basis outgoing incoming modes
  = fst (evaluate data adjoint cosine_mult gn basis outgoing incoming modes value).
Proof.
  unfold evaluate_pdf, evaluate.
  destruct (ScatteringMode.has_diffuse modes); simpl; [|reflexivity].
  destruct (flt (dot incoming (get_normal basis)) 0); [reflexivity|].
  destruct (fne (m_roughness data) 0); [|reflexivity].
  destruct (flt (dot outgoing (get_normal basis)) 0); reflexivity.
Qed.


(** [sample] on the rough branch with a direction below the surface: the
    stream has advanced, the record is handed back as it was. *)
Lemma sample_rejected ctx data adjoint cosine_mult modes smp :
  ScatteringMode.has_diffuse modes = true ->
  ~ m_roughness data == 0 ->
  dot (get_value (m_outgoing smp)) (get_normal (m_shading_basis smp)) < 0 \/
  dot (drawn_incoming ctx smp) (get_normal (m_shading_basis smp)) < 0 ->
  snd (sample ctx data adjoint cosine_mult modes smp) = smp.
Proof.
  intros Hd Hr Hbelow. unfold sample, drawn_incoming, drawn_direction in *. rewrite Hd. simpl.
  destruct (next2 (split_in_place ctx 2 1)) as [s ctx'] eqn:Hnext. simpl in *.
  apply fne_true in Hr. rewrite Hr.
  destruct (flt (dot (get_value (m_outgoing smp)) _) 0) eqn:Hon; [reflexivity|].
  apply flt_false in Hon.
  destruct Hbelow as [Hlt|Hlt]; [lra|].
  apply flt_true in Hlt. rewrite Hlt. reflexivity.
Qed.

(** [sample] on the Lambertian branch. *)
Lemma sample_lambertian ctx data adjoint cosine_mult modes smp :
  ScatteringMode.has_diffuse modes = true ->
  m_roughness data == 0 ->
  snd (sample ctx data adjoint cosine_mult modes smp)
  = finish_sample smp
      (numbers
         (spectrum_scale (m_reflectance data) (m_reflectance_multiplier data * RcpPi)))
      (drawn_direction ctx) (drawn_incoming ctx smp).
Proof.
  intros Hd Hr. unfold sample, drawn_incoming, drawn_direction. rewrite Hd. simpl.
  destruct (next2 (split_in_place ctx 2 1)) as [s ctx'] eqn:Hnext. simpl.
  apply fne_false in Hr. rewrite Hr. reflexivity.
Qed.

(** [sample] on the rough branch with both directions above the surface. *)
Lemma sample_rough ctx data adjoint cosine_mult modes smp :
  ScatteringMode.has_diffuse modes = true ->
  ~ m_roughness data == 0 ->
  0 <= dot (get_value (m_outgoing smp)) (get_normal (m_shading_basis smp)) ->
  0 <= dot (drawn_incoming ctx smp) (get_normal (m_shading_basis smp)) ->
  snd (sample ctx data adjoint cosine_mult modes smp)
  = finish_sample smp
      (oren_nayar_qualitative
         (dot (get_value (m_outgoing smp)) (get_normal (m_shading_basis smp)))
         (dot (drawn_incoming ctx smp) (get_normal (m_shading_basis smp)))
         (m_roughness data) (m_reflectance data) (m_reflectance_multiplier data)
         (get_value (m_outgoing smp)) (drawn_incoming ctx smp)
         (get_normal (m_shading_basis smp)))
      (drawn_direction ctx) (drawn_incoming ctx smp).
Proof.
  intros Hd Hr Hon Hin. unfold sample, drawn_incoming, drawn_direction in *. rewrite Hd. simpl.
  destruct (next2 (split_in_place ctx 2 1)) as [s ctx'] eqn:Hnext. simpl in *.
  apply fne_true in Hr. apply flt_false in Hon. apply flt_false in Hin.
  rewrite Hr, Hon, Hin. reflexivity.
Qed.


(** The direction [sample] draws lies strictly above the horizon. *)
Lemma drawn_direction_above (ctx : SamplingContext) :
  0 < vy (drawn_direction ctx).
Proof.
  unfold drawn_direction.
  apply sample_hemisphere_cosine_above, next2_unit_square.
Qed.


(** C9 (amended).  With diffuse mode requested, [sample] draws a local
    direction [wi].  When the direction is not rejected by the below-surface
    tests of the rough branch, the returned density is [wi.y * RcpPi], the
    cosine of the drawn direction over pi, it is strictly positive, as the
    source asserts, and the returned mode is diffuse.  When the direction
    is rejected, the sample record comes back as it was passed in. *)
Theorem sample_probability ctx data adjoint cosine_mult modes smp :
  ScatteringMode.has_diffuse modes = true ->
  let r := snd (sample ctx data adjoint cosine_mult modes smp) in
  let n := get_normal (m_shading_basis smp) in
  let cos_on := dot (get_value (m_outgoing smp)) n in
  let cos_in := dot (drawn_incoming ctx smp) n in
  ((~ m_roughness data == 0 -> 0 <= cos_on /\ 0 <= cos_in) ->
   m_probability r = vy (drawn_direction ctx) * RcpPi /\
   m_mode r = ScatteringMode.Diffuse /\
   0 < m_probability r)
  /\
  (~ m_roughness data == 0 -> cos_on < 0 \/ cos_in < 0 -> r = smp).
Proof.
  intros Hd r n cos_on cos_in. split.
  - intros Hkeep.
    assert (m_probability r = vy (drawn_direction ctx) * RcpPi /\
            m_mode r = ScatteringMode.Diffuse) as [Hp Hm].
    { subst r. destruct (Qeq_dec (m_roughness data) 0) as [Hr|Hr].
      - rewrite sample_lambertian by assumption. split; reflexivity.
      - destruct (Hkeep Hr) as [Hon Hin].
        rewrite sample_rough by assumption. split; reflexivity. }
    split; [exact Hp|]. split; [exact Hm|].
    rewrite Hp.
    pose proof (drawn_direction_above ctx) as Hy.
    pose proof RcpPi_positive as Hpi. nra.
  - intros Hr Hbelow. apply sample_rejected; assumption.
Qed.

End OrenNayarProperties.

(** *** The Oren-Nayar theorems on concrete inputs *)

Section OrenNayarRuns.

Import Foundation OrenNayar Examples.
Local Open Scope Q_scope.

(** C1, the amended statement at a rough surface seen from below. *)
Lemma evaluate_rejected_is_zero_witness :
  let r :=
    @evaluate libm_rational rough_values false false up basis_up down up
      ScatteringMode.Diffuse zero_value in
  fst r = 0 /\ (snd r = zero_value \/ snd r = dsc_set zero_value 0).
Proof.
  apply (@evaluate_rejected_is_zero libm_rational rough_values false false up
           basis_up down up ScatteringMode.Diffuse zero_value).
  right. right. split.
  - vm_compute. discriminate.
  - vm_compute. reflexivity.
Defined.

(** C1 as stated fails: with roughness zero and the outgoing direction
    below the surface, [evaluate] returns a positive density and a positive
    value. *)
Lemma evaluate_outgoing_below_smooth :
  let r :=
    @evaluate libm_rational smooth_values false false up basis_up down up
      ScatteringMode.Diffuse zero_value in
  m_roughness smooth_values == 0 /\
  dot down (get_normal basis_up) < 0 /\
  ~ fst r == 0 /\
  exists values : Spectrum,
    m_diffuse (snd r) = numbers values /\ Forall (fun v => ~ v == 0) values.
Proof.
  split; [reflexivity|]. split; [reflexivity|].
  split; [vm_compute; discriminate|].
  exists [0.5 * (1 * 0.318309886); 0.25 * (1 * 0.318309886)].
  split; [reflexivity|].
  repeat constructor; vm_compute; discriminate.
Defined.

(** C2 at a smooth surface lit and seen from above. *)
Lemma evaluate_roughness_zero_lambertian_witness :
  let r :=
    @evaluate libm_rational smooth_values false false up basis_up up up
      ScatteringMode.Diffuse zero_value in
  (exists values : Spectrum,
     m_diffuse (snd r) = numbers values /\
     Forall2
       (fun v refl =>
          v == refl * m_reflectance_multiplier smooth_values / (/ 0.318309886))
       values (m_reflectance smooth_values))
  /\ m_beauty (snd r) = m_diffuse (snd r).
Proof.
  apply (@evaluate_roughness_zero_lambertian libm_rational smooth_values
           false false up basis_up up up ScatteringMode.Diffuse zero_value
           (/ 0.318309886)).
  - reflexivity.
  - vm_compute. discriminate.
  - vm_compute. discriminate.
  - vm_compute. reflexivity.
  - vm_compute. reflexivity.
Defined.



(** C9, the amended statement at a rough surface seen from above. *)
Lemma sample_probability_witness :
  let ctx : @SamplingContext brdf_host := [mkVector2 0 0] in
  let r :=
    snd (@sample libm_rational brdf_host ctx rough_values false false
           ScatteringMode.Diffuse (fresh_sample up)) in
  m_probability r = vy (@drawn_direction brdf_host ctx) * @RcpPi libm_rational /\
  m_mode r = ScatteringMode.Diffuse /\
  0 < m_probability r.
Proof.
  apply (proj1 (@sample_probability libm_rational brdf_host [mkVector2 0 0]
                  rough_values false false ScatteringMode.Diffuse
                  (fresh_sample up) eq_refl)).
  intros _. split; vm_compute; discriminate.
Defined.

(** C9 as stated fails: on a rough surface seen from below a direction is
    drawn, into the upper hemisphere, and then rejected; the record comes
    back with the density it had, here zero. *)
Lemma sample_drawn_then_rejected :
  let ctx : @SamplingContext brdf_host := [mkVector2 0 0] in
  let r :=
    snd (@sample libm_rational brdf_host ctx rough_values false false
           ScatteringMode.Diffuse (fresh_sample down)) in
  ScatteringMode.has_diffuse ScatteringMode.Diffuse = true /\
  0 < vy (@drawn_direction brdf_host ctx) /\
  m_probability r = 0 /\
  ~ m_probability r == vy (@drawn_direction brdf_host ctx) * @RcpPi libm_rational /\
  ~ 0 < m_probability r.
Proof.
  vm_compute. split; [reflexivity|]. split; [reflexivity|].
  split; [reflexivity|]. split; discriminate.
Defined.

End OrenNayarRuns.

(** ** The voxel AO surface shader *)

Section VoxelAOProperties.

Import Foundation VoxelAO.
Local Open Scope Q_scope.

Context `{Host}.

(** Whatever the parameters, the constructed shader has thresholds with
    [0 <= low <= high]. *)
Lemma constructor_thresholds_valid name params mem :
  let s := fst (VoxelAOSurfaceShader name params mem) in
  0 <= m_low_threshold s /\ m_low_threshold s <= m_high_threshold s.
Proof.
  unfold VoxelAOSurfaceShader, extract_parameters.
  destruct (flt (get_optional params "low_threshold" DefaultLowThreshold) 0.0) eqn:E1;
    simpl; [unfold DefaultLowThreshold, DefaultHighThreshold; lra|].
  destruct (flt (get_optional params "high_threshold" DefaultHighThreshold) 0.0) eqn:E2;
    simpl; [unfold DefaultLowThreshold, DefaultHighThreshold; lra|].
  destruct (flt (get_optional params "high_threshold" DefaultHighThreshold)
              (get_optional params "low_threshold" DefaultLowThreshold)) eqn:E3;
    simpl; [unfold DefaultLowThreshold, DefaultHighThreshold; lra|].
  apply flt_false in E1, E3. lra.
Qed.

(** [on_frame_begin] with both counters unchanged. *)
Lemma on_frame_begin_unchanged (scene : Scene) (s : Shader) :
  get_geometry_version_id scene = m_last_geometry_version_id s ->
  get_assembly_instances_version_id scene = m_last_asm_inst_version_id s ->
  on_frame_begin scene s = (s, []).
Proof.
  intros Hg Ha. unfold on_frame_begin.
  rewrite Hg, Ha, !N.eqb_refl. reflexivity.
Qed.

(** [on_frame_begin] with a counter changed: the guard of the rebuild
    holds. *)
Lemma on_frame_begin_guard (scene : Scene) (s : Shader) :
  get_geometry_version_id scene <> m_last_geometry_version_id s \/
  get_assembly_instances_version_id scene <> m_last_asm_inst_version_id s ->
  negb (get_geometry_version_id scene =? m_last_geometry_version_id s)%N
  || negb (get_assembly_instances_version_id scene =? m_last_asm_inst_version_id s)%N
  = true.
Proof.
  intros [Hne|Hne]; apply N.eqb_neq in Hne; rewrite Hne; simpl;
    [reflexivity | apply orb_true_r].
Qed.

(** After a rebuild from ordered thresholds and a tree of non-negative
    diagonal length, the world space thresholds are ordered. *)
Lemma rebuilt_thresholds_ordered (scene : Scene) (s : Shader) :
  get_geometry_version_id scene <> m_last_geometry_version_id s \/
  get_assembly_instances_version_id scene <> m_last_asm_inst_version_id s ->
  m_low_threshold s <= m_high_threshold s ->
  0 <= get_max_diag_length (new_AOVoxelTree scene (m_max_voxel_extent s)) ->
  let s' := fst (on_frame_begin scene s) in
  m_classic_threshold s' <= m_fast_threshold s'.
Proof.
  intros Hne Hlh Hdiag. unfold on_frame_begin.
  rewrite (on_frame_begin_guard _ _ Hne).
  cbn [fst m_classic_threshold m_fast_threshold].
  set (d := get_max_diag_length _) in *.
  assert (0 <= 1.0 + 1.0e-5) as Hk by (vm_compute; discriminate).
  set (k := 1.0 + 1.0e-5) in *.
  assert (0 <= d * k) by nra. nra.
Qed.

(** A newly constructed shader has seen no version and owns no tree. *)
Lemma constructor_versions_invalid name params memory :
  let s := fst (VoxelAOSurfaceShader name params memory) in
  m_last_geometry_version_id s = InvalidVersionID /\
  m_last_asm_inst_version_id s = InvalidVersionID /\
  m_voxel_tree s = None /\ m_voxel_tree_intersector s = None.
Proof.
  unfold VoxelAOSurfaceShader, extract_parameters.
  destruct (flt _ 0.0 || flt _ 0.0 || flt _ _); simpl; auto.
Qed.

(** The first frame of a newly constructed shader orders the world space
    thresholds, whatever the parameters, when the scene's geometry has a
    valid version and its voxel tree a non-negative diagonal length. *)
Lemma first_frame_thresholds_ordered name params memory (scene : Scene) :
  get_geometry_version_id scene <> InvalidVersionID ->
  (forall extent, 0 <= get_max_diag_length (new_AOVoxelTree scene extent)) ->
  let s := fst (on_frame_begin scene (fst (VoxelAOSurfaceShader name params memory))) in
  m_classic_threshold s <= m_fast_threshold s.
Proof.
  intros Hver Hdiag.
  apply rebuilt_thresholds_ordered.
  - left.
    destruct (constructor_versions_invalid name params memory) as [E _].
    rewrite E. exact Hver.
  - apply constructor_thresholds_valid.
  - apply Hdiag.
Qed.

(** The three branches of the test on the clearance. *)
Lemma select_mode_fast (s : Shader) (clearance : Q) :
  m_fast_threshold s <= clearance -> select_mode s clearance = FastMode.
Proof.
  intros Hc. unfold select_mode. apply fge_true in Hc. rewrite Hc. reflexivity.
Qed.

Lemma select_mode_classic (s : Shader) (clearance : Q) :
  clearance < m_fast_threshold s -> clearance < m_classic_threshold s ->
  select_mode s clearance = ClassicMode.
Proof.
  intros Hf Hc. unfold select_mode.
  apply fge_false in Hf. apply flt_true in Hc. rewrite Hf, Hc. reflexivity.
Qed.

Lemma select_mode_blend (s : Shader) (clearance : Q) :
  clearance < m_fast_threshold s -> m_classic_threshold s <= clearance ->
  select_mode s clearance
  = BlendMode (linearstep (m_classic_threshold s) (m_fast_threshold s) clearance).
Proof.
  intros Hf Hc. unfold select_mode.
  apply fge_false in Hf. apply flt_false in Hc. rewrite Hf, Hc. reflexivity.
Qed.

(** [linearstep] at its lower edge. *)
Lemma linearstep_lower (a b : Q) : linearstep a b a = 0.
Proof.
  unfold linearstep. assert (fle a a = true) as E by (apply fle_true; lra).
  rewrite E. reflexivity.
Qed.

(** With diagnostics enabled the colour [evaluate] writes names the branch
    taken: blue for fast, yellow for classic, [(1 - k, 0, k)] for blend. *)
Lemma evaluate_diagnostics (s : Shader) ctx isect sp tree ti origin clearance :
  m_enable_diagnostics s = true ->
  m_voxel_tree s = Some tree ->
  m_voxel_tree_intersector s = Some ti ->
  measure_clearance s ti sp = Some (origin, clearance) ->
  exists ctx',
    evaluate s ctx isect sp
    = Some (ctx',
            match select_mode s clearance with
            | FastMode => mkShadingResult ColorSpaceLinearRGB 1 0 0 1
            | ClassicMode => mkShadingResult ColorSpaceLinearRGB 1 1 1 0
            | BlendMode k => mkShadingResult ColorSpaceLinearRGB 1 (1 - k) 0 k
            end).
Proof.
  intros Hdiag Htree Hti Hclear. unfold evaluate.
  rewrite Htree, Hti, Hclear.
  destruct (select_mode s clearance) as [| |k].
  - destruct (compute_fast_ambient_occlusion _ _ _ _ _ _ _) as [[o d] c].
    rewrite Hdiag. eauto.
  - destruct (compute_ambient_occlusion _ _ _ _ _ _ _ _) as [o c].
    rewrite Hdiag. eauto.
  - destruct (compute_ambient_occlusion _ _ _ _ _ _ _ _) as [o c].
    destruct (compute_fast_ambient_occlusion _ _ _ _ _ _ _) as [[o' d] c'].
    rewrite Hdiag. eauto.
Qed.

(** C4 (amended).  With [classic_threshold <= fast_threshold], the strategy
    is selected from the clearance as follows: at or above the fast
    threshold, fast mode; below the classic threshold, classic mode;
    otherwise blend mode with factor
    [linearstep(classic_threshold, fast_threshold, clearance)].  A clearance
    equal to the fast threshold selects fast mode; a clearance equal to the
    classic threshold selects blend mode with factor 0 when the classic
    threshold is strictly below the fast threshold. *)
Theorem select_mode_by_clearance (s : Shader) (clearance : Q) :
  m_classic_threshold s <= m_fast_threshold s ->
  (m_fast_threshold s <= clearance -> select_mode s clearance = FastMode) /\
  (clearance < m_classic_threshold s -> select_mode s clearance = ClassicMode) /\
  (m_classic_threshold s <= clearance -> clearance < m_fast_threshold s ->
   select_mode s clearance
   = BlendMode (linearstep (m_classic_threshold s) (m_fast_threshold s) clearance)) /\
  select_mode s (m_fast_threshold s) = FastMode /\
  (m_classic_threshold s < m_fast_threshold s ->
   select_mode s (m_classic_threshold s) = BlendMode 0).
Proof.
  intros Hord. repeat split.
  - apply select_mode_fast.
  - intros Hc. apply select_mode_classic; lra.
  - intros Hc Hf. apply select_mode_blend; assumption.
  - apply select_mode_fast. lra.
  - intros Hlt. rewrite select_mode_blend by lra.
    rewrite linearstep_lower. reflexivity.
Qed.

(** C5.  [on_frame_begin] with both version counters equal to the cached
    ones returns the shader as it was and causes no event; with a counter
    changed it has the tree and the intersector built, caches the counters
    and recomputes the derived quantities, leaving the configuration
    alone. *)
Theorem on_frame_begin_gating (scene : Scene) (s : Shader) :
  (get_geometry_version_id scene = m_last_geometry_version_id s ->
   get_assembly_instances_version_id scene = m_last_asm_inst_version_id s ->
   on_frame_begin scene s = (s, []))
  /\
  (get_geometry_version_id scene <> m_last_geometry_version_id s \/
   get_assembly_instances_version_id scene <> m_last_asm_inst_version_id s ->
   let s' := fst (on_frame_begin scene s) in
   let events := snd (on_frame_begin scene s) in
   let tree := new_AOVoxelTree scene (m_max_voxel_extent s) in
   m_voxel_tree s' = Some tree /\
   m_voxel_tree_intersector s' = Some (new_AOVoxelTreeIntersector tree) /\
   m_last_geometry_version_id s' = get_geometry_version_id scene /\
   m_last_asm_inst_version_id s' = get_assembly_instances_version_id scene /\
   m_diag_length s' = get_max_diag_length tree * (1.0 + 1.0e-5) /\
   m_classic_threshold s' = m_low_threshold s * m_diag_length s' /\
   m_fast_threshold s' = m_high_threshold s * m_diag_length s' /\
   m_half_samples s' = N.max 1 (m_samples s / 2) /\
   In (BuildVoxelTree (m_max_voxel_extent s)) events /\
   In BuildVoxelTreeIntersector events /\
   (m_name s', m_samples s', m_max_distance s', m_max_voxel_extent s',
    m_low_threshold s', m_high_threshold s', m_output_filename s',
    m_enable_diagnostics s')
   = (m_name s, m_samples s, m_max_distance s, m_max_voxel_extent s,
      m_low_threshold s, m_high_threshold s, m_output_filename s,
      m_enable_diagnostics s)).
Proof.
  split.
  - apply on_frame_begin_unchanged.
  - intros Hne. unfold on_frame_begin.
    rewrite (on_frame_begin_guard _ _ Hne). simpl.
    repeat split.
    + destruct (N.ltb_spec (m_samples s / 2) 1) as [Hlt|Hge]; lia.
    + left. reflexivity.
    + right. apply in_or_app. right. left. reflexivity.
Qed.

(** C6.  When the looked-up low threshold is negative, or the looked-up
    high threshold is negative, or the high one is below the low one, the
    constructor returns a shader whose thresholds are the defaults 2.0 and
    4.0, and logs the error. *)
Theorem invalid_thresholds_fall_back name (params : gmap string ParamValue) mem :
  let low := get_optional params "low_threshold" DefaultLowThreshold in
  let high := get_optional params "high_threshold" DefaultHighThreshold in
  low < 0.0 \/ high < 0.0 \/ high < low ->
  let s := fst (VoxelAOSurfaceShader name params mem) in
  m_low_threshold s = 2.0 /\ m_high_threshold s = 4.0 /\
  exists message, snd (VoxelAOSurfaceShader name params mem) = [LogError message].
Proof.
  intros low high Hbad. unfold VoxelAOSurfaceShader, extract_parameters.
  fold low high.
  assert (flt low 0.0 || flt high 0.0 || flt high low = true) as E.
  { destruct Hbad as [Hb|[Hb|Hb]]; apply flt_true in Hb; rewrite Hb;
      rewrite ?orb_true_r; reflexivity. }
  rewrite E. simpl. repeat split. eexists. reflexivity.
Qed.

End VoxelAOProperties.

(** *** The voxel AO theorems on concrete inputs *)

Section VoxelAORuns.

Import Foundation VoxelAO Examples.
Local Open Scope Q_scope.

(** C4, the amended statement on the default thresholds, clearance 3. *)
Lemma select_mode_by_clearance_witness :
  (m_fast_threshold built <= 3 -> select_mode built 3 = FastMode) /\
  (3 < m_classic_threshold built -> select_mode built 3 = ClassicMode) /\
  (m_classic_threshold built <= 3 -> 3 < m_fast_threshold built ->
   select_mode built 3
   = BlendMode (linearstep (m_classic_threshold built) (m_fast_threshold built) 3)) /\
  select_mode built (m_fast_threshold built) = FastMode /\
  (m_classic_threshold built < m_fast_threshold built ->
   select_mode built (m_classic_threshold built) = BlendMode 0).
Proof.
  apply (@select_mode_by_clearance ao_host built 3).
  vm_compute. discriminate.
Defined.

(** C4 as stated fails: thresholds 2 and 2 pass the validation of the
    constructor; the two world space thresholds are then equal, and a
    clearance equal to the classic threshold selects fast mode, not blend
    mode with factor 0. *)
Lemma equal_thresholds_select_fast :
  m_low_threshold flat = 2 /\ m_high_threshold flat = 2 /\
  m_classic_threshold flat == m_fast_threshold flat /\
  select_mode flat (m_classic_threshold flat) = FastMode /\
  select_mode flat (m_classic_threshold flat) <> BlendMode 0.
Proof.
  vm_compute. repeat split; discriminate.
Defined.

(** C5: the first frame rebuilds, the second frame on the same scene does
    nothing. *)
Lemma on_frame_begin_gating_witness :
  @on_frame_begin ao_host unit_scene built = (built, []) /\
  m_voxel_tree built = Some 1 /\
  m_voxel_tree_intersector built = Some 1 /\
  m_half_samples built = 8%N /\
  snd (@on_frame_begin ao_host unit_scene fresh)
  = [BuildVoxelTree 0.01; BuildVoxelTreeIntersector].
Proof.
  split.
  - apply (proj1 (@on_frame_begin_gating ao_host unit_scene built));
      reflexivity.
  - pose proof (proj2 (@on_frame_begin_gating ao_host unit_scene fresh)) as P.
    assert (@get_geometry_version_id ao_host unit_scene
            <> m_last_geometry_version_id fresh) as Hne
      by (vm_compute; discriminate).
    destruct (P (or_introl Hne)) as (Ht & Hi & _ & _ & _ & _ & _ & Hh & _).
    split; [exact Ht|]. split; [exact Hi|]. split; [exact Hh|]. reflexivity.
Defined.

(** C6 on thresholds 5 and 3. *)
Lemma invalid_thresholds_fall_back_witness :
  let s := fst (@VoxelAOSurfaceShader ao_host "ao" swapped_thresholds_params
                  stale_memory) in
  m_low_threshold s = 2.0 /\ m_high_threshold s = 4.0 /\
  exists message,
    snd (@VoxelAOSurfaceShader ao_host "ao" swapped_thresholds_params stale_memory)
    = [LogError message].
Proof.
  apply (@invalid_thresholds_fall_back ao_host "ao" swapped_thresholds_params
           stale_memory).
  right. right. vm_compute. reflexivity.
Defined.

End VoxelAORuns.

(** ** The pixel variation AOV *)

Section PixelVariationProperties.

Import Foundation PixelVariation.
Local Open Scope Q_scope.

(** The loop counter runs through the closed interval. *)
Lemma elem_of_range (lo hi i : nat) : i ∈ range lo hi <-> (lo <= i <= hi)%nat.
Proof. unfold range. rewrite elem_of_seq. lia. Qed.

(** The loop nest visits exactly the pixels of the crop window, each once. *)
Lemma elem_of_window_pixels (crop_window : AABB2u) (px py : nat) :
  (px, py) ∈ window_pixels crop_window <-> in_window crop_window px py.
Proof.
  unfold window_pixels, in_window. rewrite list_elem_of_bind. split.
  - intros (qy & Hin & Hy). apply list_elem_of_fmap in Hin as (qx & E & Hx).
    inversion E; subst. apply elem_of_range in Hx, Hy. auto.
  - intros [Hx Hy]. exists py. split; [|apply elem_of_range, Hy].
    apply list_elem_of_fmap. exists px. split; [reflexivity|].
    apply elem_of_range, Hx.
Qed.

Lemma NoDup_window_pixels (crop_window : AABB2u) :
  NoDup (window_pixels crop_window).
Proof.
  unfold window_pixels. apply NoDup_bind.
  - intros y1 y2 [qx qy] _ _ H1 H2.
    apply list_elem_of_fmap in H1 as (? & E1 & _).
    apply list_elem_of_fmap in H2 as (? & E2 & _).
    inversion E1; inversion E2; congruence.
  - intros py _. apply NoDup_fmap_2; [|apply NoDup_seq].
    intros a b E. inversion E. reflexivity.
  - apply NoDup_seq.
Qed.

(** The loop nest is one loop over the visited pixels. *)
Lemma for_each_pixel_flat {A : Type} (crop_window : AABB2u)
    (body : nat -> nat -> A -> A) (init : A) :
  for_each_pixel crop_window body init
  = fold_left (fun acc p => body (fst p) (snd p) acc) (window_pixels crop_window) init.
Proof.
  unfold for_each_pixel, window_pixels.
  generalize (range (x (min crop_window)) (x (max crop_window))) as xs.
  generalize (range (y (min crop_window)) (y (max crop_window))) as ys.
  intros ys xs. revert init.
  induction ys as [|py ys IH]; intros init; [reflexivity|].
  rewrite bind_cons, fold_left_app. simpl. rewrite IH. f_equal.
  generalize init. clear.
  induction xs as [|px xs IHx]; intros init; [reflexivity|].
  simpl. apply IHx.
Qed.

(** A running maximum: it never falls below its start, it bounds every
    value seen, and it is the start or one of the values seen. *)
Lemma running_max_ge_init {P : Type} (f : P -> Q) (l : list P) (init : Q) :
  init <= fold_left (fun m p => fmax (f p) m) l init.
Proof.
  revert init. induction l as [|p l IH]; intros init; simpl; [lra|].
  specialize (IH (fmax (f p) init)).
  destruct (fmax_cases (f p) init) as [[? E]|[? E]]; rewrite E in *; lra.
Qed.

Lemma running_max_bound {P : Type} (f : P -> Q) (l : list P) (init : Q) (p : P) :
  p ∈ l -> f p <= fold_left (fun m p => fmax (f p) m) l init.
Proof.
  revert init. induction l as [|q l IH]; intros init Hin; [inversion Hin|].
  simpl. apply elem_of_cons in Hin as [->|Hin].
  - pose proof (running_max_ge_init f l (fmax (f q) init)) as Hge.
    destruct (fmax_cases (f q) init) as [[? E]|[? E]]; rewrite E in *; lra.
  - apply IH, Hin.
Qed.

Lemma running_max_attained {P : Type} (f : P -> Q) (l : list P) (init : Q) :
  fold_left (fun m p => fmax (f p) m) l init = init \/
  exists p, p ∈ l /\ fold_left (fun m p => fmax (f p) m) l init = f p.
Proof.
  revert init. induction l as [|q l IH]; intros init; simpl; [left; reflexivity|].
  destruct (IH (fmax (f q) init)) as [E|(p & Hin & E)].
  - rewrite E. destruct (fmax_cases (f q) init) as [[_ E']|[_ E']]; rewrite E'.
    + left. reflexivity.
    + right. exists q. split; [left|reflexivity].
  - right. exists p. split; [right; exact Hin | exact E].
Qed.

(** The running maximum reads the values of the visited elements only. *)
Lemma running_max_ext {P : Type} (f g : P -> Q) (l : list P) (init : Q) :
  (forall p, p ∈ l -> f p = g p) ->
  fold_left (fun m p => fmax (f p) m) l init
  = fold_left (fun m p => fmax (g p) m) l init.
Proof.
  revert init. induction l as [|q l IH]; intros init Hfg; [reflexivity|].
  simpl. rewrite (Hfg q) by left. apply IH.
  intros p Hp. apply Hfg. right. exact Hp.
Qed.

(** A loop that rewrites each visited pixel from its own old content: a
    visited pixel holds the rewritten content, every other key of the
    image is as before. *)
Lemma rewrite_pixels_lookup (g : Color3f -> Color3f) (l : list (nat * nat))
    (image : gmap (nat * nat) Color3f) (q : nat * nat) :
  NoDup l ->
  fold_left
    (fun m_image p =>
       set_pixel m_image (fst p) (snd p) (g (get_pixel m_image (fst p) (snd p))))
    l image !! q
  = if decide (q ∈ l) then Some (g (get_pixel image (fst q) (snd q)))
    else image !! q.
Proof.
  revert image. induction l as [|p l IH]; intros image Hnd.
  - simpl. destruct (decide (q ∈ [])) as [Hin|_]; [inversion Hin | reflexivity].
  - apply NoDup_cons in Hnd as [Hp Hnd]. simpl. rewrite IH by exact Hnd.
    destruct p as [px py]. destruct q as [qx qy]. simpl in *.
    unfold set_pixel, get_pixel.
    destruct (decide ((qx, qy) = (px, py))) as [E|Hne].
    + inversion E; subst.
      destruct (decide ((px, py) ∈ l)) as [Hin|_]; [contradiction|].
      rewrite lookup_insert_eq.
      destruct (decide ((px, py) ∈ (px, py) :: l)) as [_|Hout];
        [reflexivity | exfalso; apply Hout; left].
    + rewrite lookup_insert_ne by congruence.
      destruct (decide ((qx, qy) ∈ l)) as [Hin|Hout].
      * destruct (decide ((qx, qy) ∈ (px, py) :: l)) as [_|Hout];
          [reflexivity | exfalso; apply Hout; right; exact Hin].
      * destruct (decide ((qx, qy) ∈ (px, py) :: l)) as [Hin|_]; [|reflexivity].
        apply elem_of_cons in Hin as [E|Hin]; [congruence | contradiction].
Qed.

(** The maximum found by the first loop nest, as one running maximum. *)
Lemma find_max_variation_flat (crop_window : AABB2u)
    (m_image : gmap (nat * nat) Color3f) :
  find_max_variation crop_window m_image
  = fold_left (fun m p => fmax (c0 (get_pixel m_image (fst p) (snd p))) m)
      (window_pixels crop_window) 0.0.
Proof. unfold find_max_variation. apply for_each_pixel_flat. Qed.

Lemma find_max_variation_nonnegative crop_window m_image :
  0 <= find_max_variation crop_window m_image.
Proof.
  rewrite find_max_variation_flat.
  pose proof (running_max_ge_init
    (fun p => c0 (get_pixel m_image (fst p) (snd p)))
    (window_pixels crop_window) 0.0) as Hge.
  cbv beta in Hge. lra.
Qed.

Lemma find_max_variation_bound crop_window m_image px py :
  in_window crop_window px py ->
  c0 (get_pixel m_image px py) <= find_max_variation crop_window m_image.
Proof.
  intros Hin. rewrite find_max_variation_flat.
  apply (running_max_bound (fun p => c0 (get_pixel m_image (fst p) (snd p)))
           (window_pixels crop_window) 0.0 (px, py)).
  apply elem_of_window_pixels, Hin.
Qed.

Lemma find_max_variation_attained crop_window m_image :
  find_max_variation crop_window m_image = 0.0 \/
  exists px py, in_window crop_window px py /\
    find_max_variation crop_window m_image = c0 (get_pixel m_image px py).
Proof.
  rewrite find_max_variation_flat.
  destruct (running_max_attained
    (fun p => c0 (get_pixel m_image (fst p) (snd p)))
    (window_pixels crop_window) 0.0) as [E|([px py] & Hin & E)].
  - left. exact E.
  - right. exists px, py. split; [apply elem_of_window_pixels, Hin | exact E].
Qed.

(** What [post_process_image] leaves under every key of the image. *)
Lemma post_process_image_lookup (frame : Frame)
    (m_image : gmap (nat * nat) Color3f) (px py : nat) :
  let crop_window := get_crop_window frame in
  let max_variation := find_max_variation crop_window m_image in
  post_process_image frame m_image !! (px, py)
  = if decide ((px, py) ∈ window_pixels crop_window)
    then Some
           (if fne max_variation 0.0
            then lerp_color Blue Red
                   (fit (c0 (get_pixel m_image px py)) 0.0 max_variation 0.0 1.0)
            else Blue)
    else m_image !! (px, py).
Proof.
  intros crop_window max_variation. unfold post_process_image.
  fold crop_window. fold max_variation.
  destruct (fne max_variation 0.0); rewrite for_each_pixel_flat.
  - apply (rewrite_pixels_lookup
             (fun color =>
                lerp_color Blue Red (fit (c0 color) 0.0 max_variation 0.0 1.0))
             (window_pixels crop_window) m_image (px, py)).
    apply NoDup_window_pixels.
  - apply (rewrite_pixels_lookup (fun _ => Blue)
             (window_pixels crop_window) m_image (px, py)).
    apply NoDup_window_pixels.
Qed.

(** Interpolating between blue and red. *)
Lemma lerp_color_proper (t t' : Q) :
  t == t' -> color_eq (lerp_color Blue Red t) (lerp_color Blue Red t').
Proof.
  intros E. unfold color_eq, lerp_color, lerp, Blue, Red. simpl.
  rewrite E. repeat split; reflexivity.
Qed.

Lemma fit_unit_interval (v max_variation : Q) :
  ~ max_variation == 0 -> fit v 0.0 max_variation 0.0 1.0 == v / max_variation.
Proof.
  intros Hne. unfold fit, lerp.
  assert (0.0 == 0) as E0 by reflexivity.
  assert (1.0 == 1) as E1 by reflexivity.
  rewrite E0, E1. field. lra.
Qed.

Lemma lerp_color_ends :
  color_eq (lerp_color Blue Red 0) Blue /\
  color_eq (lerp_color Blue Red 1) Red /\
  color_eq (lerp_color Blue Red (1 / 2)) (mkColor3f 0.5 0.0 0.5).
Proof. unfold color_eq. vm_compute. repeat split. Qed.

Lemma color_eq_trans (a b c : Color3f) :
  color_eq a b -> color_eq b c -> color_eq a c.
Proof.
  unfold color_eq. intros (E0 & E1 & E2) (F0 & F1 & F2).
  rewrite E0, E1, E2. auto.
Qed.

(** C7.  On a variance image, whose first channel is non-negative over the
    crop window, [post_process_image] finds the maximum of the first channel
    over the window; if it is zero every pixel of the window becomes blue;
    otherwise every pixel becomes the interpolation between blue and red at
    value / maximum, so that 0 gives blue, the maximum gives red and half
    the maximum gives the midpoint. *)
Theorem post_process_image_normalizes (frame : Frame)
    (m_image : gmap (nat * nat) Color3f) :
  let crop_window := get_crop_window frame in
  let max_variation := find_max_variation crop_window m_image in
  let result := post_process_image frame m_image in
  (forall px py, in_window crop_window px py -> 0 <= c0 (get_pixel m_image px py)) ->
  (forall px py, in_window crop_window px py ->
     c0 (get_pixel m_image px py) <= max_variation) /\
  (forall px py, in_window crop_window px py ->
     exists qx qy, in_window crop_window qx qy /\
       c0 (get_pixel m_image qx qy) == max_variation) /\
  (forall px py, in_window crop_window px py ->
     let value := c0 (get_pixel m_image px py) in
     (max_variation == 0 -> get_pixel result px py = Blue) /\
     (~ max_variation == 0 ->
        color_eq (get_pixel result px py)
          (lerp_color Blue Red (value / max_variation)) /\
        (value == 0 -> color_eq (get_pixel result px py) Blue) /\
        (value == max_variation -> color_eq (get_pixel result px py) Red) /\
        (value == max_variation / 2 ->
           color_eq (get_pixel result px py) (mkColor3f 0.5 0.0 0.5)))).
Proof.
  intros crop_window max_variation result Hvar.
  split; [|split].
  - intros px py Hin. apply find_max_variation_bound, Hin.
  - intros px py Hin.
    destruct (find_max_variation_attained crop_window m_image)
      as [E|(qx & qy & Hq & E)].
    + exists px, py. split; [exact Hin|].
      pose proof (find_max_variation_bound crop_window m_image px py Hin) as Hb.
      pose proof (Hvar px py Hin) as H0.
      fold max_variation in Hb. unfold max_variation in *. rewrite E in *.
      assert (0.0 == 0) as E0 by reflexivity. lra.
    + exists qx, qy. split; [exact Hq|]. unfold max_variation. rewrite E.
      reflexivity.
  - intros px py Hin value.
    assert (get_pixel result px py
            = if fne max_variation 0.0
              then lerp_color Blue Red (fit value 0.0 max_variation 0.0 1.0)
              else Blue) as Hpix.
    { unfold get_pixel at 1. unfold result.
      rewrite post_process_image_lookup. fold crop_window. fold max_variation.
      destruct (decide ((px, py) ∈ window_pixels crop_window)) as [_|Hout];
        [reflexivity|].
      exfalso. apply Hout, elem_of_window_pixels, Hin. }
    split.
    + intros Hz. rewrite Hpix.
      assert (fne max_variation 0.0 = false) as F
        by (apply fne_false; rewrite Hz; reflexivity).
      rewrite F. reflexivity.
    + intros Hnz.
      assert (fne max_variation 0.0 = true) as F.
      { apply fne_true. intros E. apply Hnz. rewrite E. reflexivity. }
      rewrite Hpix, F.
      assert (color_eq
                (lerp_color Blue Red (fit value 0.0 max_variation 0.0 1.0))
                (lerp_color Blue Red (value / max_variation))) as Hfit
        by (apply lerp_color_proper, fit_unit_interval, Hnz).
      destruct lerp_color_ends as (Hblue & Hred & Hmid).
      split; [exact Hfit|]. split; [|split]; intros Hv;
        (eapply color_eq_trans; [exact Hfit|]);
        (eapply color_eq_trans; [apply lerp_color_proper | eassumption]).
      * rewrite Hv. field. exact Hnz.
      * rewrite Hv. field. exact Hnz.
      * rewrite Hv. field. exact Hnz.
Qed.

(** C10.  [post_process_image] writes inside the crop window only: every
    key of the image outside the window holds what it held before; and it
    reads inside the window only: two images that agree on the window are
    given the same content on the window. *)
Theorem post_process_image_frame (frame : Frame)
    (m_image : gmap (nat * nat) Color3f) :
  let crop_window := get_crop_window frame in
  (forall px py, ~ in_window crop_window px py ->
     post_process_image frame m_image !! (px, py) = m_image !! (px, py)) /\
  (forall other : gmap (nat * nat) Color3f,
     (forall px py, in_window crop_window px py ->
        get_pixel other px py = get_pixel m_image px py) ->
     forall px py, in_window crop_window px py ->
       get_pixel (post_process_image frame other) px py
       = get_pixel (post_process_image frame m_image) px py).
Proof.
  intros crop_window. split.
  - intros px py Hout. rewrite post_process_image_lookup. fold crop_window.
    destruct (decide ((px, py) ∈ window_pixels crop_window)) as [Hin|_];
      [|reflexivity].
    exfalso. apply Hout, elem_of_window_pixels, Hin.
  - intros other Hsame px py Hin.
    assert (find_max_variation crop_window other
            = find_max_variation crop_window m_image) as Hmax.
    { rewrite !find_max_variation_flat. apply running_max_ext.
      intros [qx qy] Hq. simpl. rewrite Hsame; [reflexivity|].
      apply elem_of_window_pixels, Hq. }
    unfold get_pixel at 1 2. rewrite !post_process_image_lookup.
    fold crop_window. rewrite Hmax, (Hsame px py Hin).
    destruct (decide ((px, py) ∈ window_pixels crop_window)) as [_|Hout];
      [reflexivity|].
    exfalso. apply Hout, elem_of_window_pixels, Hin.
Qed.

End PixelVariationProperties.

(** *** The pixel variation theorems on concrete inputs *)

Section PixelVariationRuns.

Import Foundation PixelVariation Examples.
Local Open Scope Q_scope.

(** The crop window of [row_frame] holds three pixels. *)
Lemma row_frame_window (px py : nat) :
  in_window (get_crop_window row_frame) px py ->
  py = 0%nat /\ (px = 0%nat \/ px = 1%nat \/ px = 2%nat).
Proof. unfold in_window. simpl. lia. Qed.

(** C7 on the values 0, 0.5 and 1.0: blue, the midpoint, red. *)
Lemma post_process_image_normalizes_witness :
  let result := post_process_image row_frame variance_image in
  color_eq (get_pixel result 0 0) Blue /\
  color_eq (get_pixel result 1 0) (mkColor3f 0.5 0.0 0.5) /\
  color_eq (get_pixel result 2 0) Red.
Proof.
  assert (forall px py, in_window (get_crop_window row_frame) px py ->
            0 <= c0 (get_pixel variance_image px py)) as Hvar.
  { intros px py Hin. apply row_frame_window in Hin as (-> & [->|[->| ->]]);
      vm_compute; discriminate. }
  destruct (post_process_image_normalizes row_frame variance_image Hvar)
    as (_ & _ & Hpix).
  assert (~ find_max_variation (get_crop_window row_frame) variance_image == 0)
    as Hnz by (vm_compute; discriminate).
  assert (forall px, (px <= 2)%nat ->
            in_window (get_crop_window row_frame) px 0) as Hin
    by (intros px Hpx; unfold in_window; simpl; lia).
  intros result. split; [|split].
  - apply (Hpix 0%nat 0%nat (Hin 0%nat ltac:(lia))); [exact Hnz|].
    vm_compute. reflexivity.
  - apply (Hpix 1%nat 0%nat (Hin 1%nat ltac:(lia))); [exact Hnz|].
    vm_compute. reflexivity.
  - apply (Hpix 2%nat 0%nat (Hin 2%nat ltac:(lia))); [exact Hnz|].
    vm_compute. reflexivity.
Defined.

(** C10 on the same image: the pixel outside the crop window is kept. *)
Lemma post_process_image_frame_witness :
  post_process_image row_frame variance_image !! (3, 0)%nat
  = Some (mkColor3f 9 9 9).
Proof.
  rewrite (proj1 (post_process_image_frame row_frame variance_image) 3%nat 0%nat).
  - reflexivity.
  - unfold in_window. simpl. lia.
Defined.

End PixelVariationRuns.

(** ** Further properties of the Oren-Nayar BRDF *)

Section OrenNayarFurther.

Import Foundation OrenNayar.
Local Open Scope Q_scope.

Context `{Libm} `{Host}.

(** X1.  The density returned by [evaluate], and by [evaluate_pdf], is never
    negative (the constant [RcpPi] being non-negative). *)
Theorem density_nonnegative
    data adjoint cosine_mult gn basis outgoing incoming modes value :
  0 <= RcpPi ->
  0 <= fst (evaluate data adjoint cosine_mult gn basis outgoing incoming modes value)
  /\ 0 <= evaluate_pdf data gn basis outgoing incoming modes.
Proof.
  intros Hpi. unfold evaluate, evaluate_pdf.
  destruct (ScatteringMode.has_diffuse modes); simpl; [|lra].
  destruct (flt (dot incoming (get_normal basis)) 0) eqn:Hin; simpl; [lra|].
  apply flt_false in Hin.
  destruct (fne (m_roughness data) 0); simpl.
  - destruct (flt (dot outgoing (get_normal basis)) 0); simpl; [lra | nra].
  - nra.
Qed.

(** X2.  [evaluate_pdf] returns zero exactly when diffuse scattering is not
    requested, or the incoming direction is below or along the surface, or
    the roughness is non-zero and the outgoing direction is below the
    surface. *)
Theorem evaluate_pdf_zero_iff data gn basis outgoing incoming modes :
  0 < RcpPi ->
  evaluate_pdf data gn basis outgoing incoming modes == 0 <->
  ScatteringMode.has_diffuse modes = false \/
  dot incoming (get_normal basis) <= 0 \/
  (~ m_roughness data == 0 /\ dot outgoing (get_normal basis) < 0).
Proof.
  intros Hpi. unfold evaluate_pdf.
  destruct (ScatteringMode.has_diffuse modes); simpl;
    [|split; [auto | reflexivity]].
  destruct (flt (dot incoming (get_normal basis)) 0) eqn:Hin; simpl.
  { apply flt_true in Hin. split; [intros _; right; left; lra | reflexivity]. }
  apply flt_false in Hin.
  assert (forall c, 0 <= c -> (c * RcpPi == 0 <-> c <= 0)) as Hzero.
  { intros c Hc. split; intros E; nra. }
  destruct (fne (m_roughness data) 0) eqn:Hr.
  - apply fne_true in Hr.
    destruct (flt (dot outgoing (get_normal basis)) 0) eqn:Hon.
    + apply flt_true in Hon. split; [auto | reflexivity].
    + apply flt_false in Hon. rewrite (Hzero _ Hin). split.
      * auto.
      * intros [Hc|[Hc|[_ Hc]]]; [discriminate | exact Hc | lra].
  - apply fne_false in Hr. rewrite (Hzero _ Hin). split.
    + auto.
    + intros [Hc|[Hc|[Hc _]]]; [discriminate | exact Hc | contradiction].
Qed.

(** X3.  With roughness zero neither [evaluate] nor [evaluate_pdf] looks at
    the outgoing direction: two calls that differ in it only return the
    same density and the same value. *)
Theorem smooth_ignores_outgoing
    data adjoint cosine_mult gn basis outgoing outgoing' incoming modes value :
  m_roughness data == 0 ->
  evaluate data adjoint cosine_mult gn basis outgoing incoming modes value
  = evaluate data adjoint cosine_mult gn basis outgoing' incoming modes value
  /\ evaluate_pdf data gn basis outgoing incoming modes
     = evaluate_pdf data gn basis outgoing' incoming modes.
Proof.
  intros Hr. apply fne_false in Hr. unfold evaluate, evaluate_pdf.
  rewrite Hr. split; reflexivity.
Qed.

(** The drawn direction keeps its height when taken to a basis aligned
    with its normal. *)
Lemma transform_to_parent_height (b : Basis3) (w : Vector3) :
  normal_aligned b -> dot (transform_to_parent b w) (get_normal b) == vy w.
Proof.
  intros (Hn & Hu & Hv).
  assert (dot (transform_to_parent b w) (get_normal b)
          == vx w * dot (m_u b) (m_n b) + vy w * dot (m_n b) (m_n b)
             + vz w * dot (m_v b) (m_n b)) as E.
  { unfold transform_to_parent, get_normal, dot, vadd, vscale. simpl. ring. }
  rewrite E, Hn, Hu, Hv. ring.
Qed.

(** The differentials computed last leave the sampled direction alone. *)
Lemma finish_sample_incoming smp diffuse wi incoming :
  get_value (m_incoming (finish_sample smp diffuse wi incoming)) = incoming.
Proof. reflexivity. Qed.

(** X4.  [sample] and [evaluate] agree: on a basis aligned with its normal,
    a sample that is not rejected carries the value [evaluate] returns for
    the outgoing direction of the record and the sampled incoming
    direction, and a density equal to the one [evaluate] returns. *)
Theorem sample_agrees_with_evaluate
    ctx data adjoint cosine_mult gn modes smp value :
  ScatteringMode.has_diffuse modes = true ->
  normal_aligned (m_shading_basis smp) ->
  0 <= vy (drawn_direction ctx) ->
  (~ m_roughness data == 0 ->
   0 <= dot (get_value (m_outgoing smp)) (get_normal (m_shading_basis smp))) ->
  let r := snd (sample ctx data adjoint cosine_mult modes smp) in
  let e :=
    evaluate data adjoint cosine_mult gn (m_shading_basis smp)
      (get_value (m_outgoing smp)) (get_value (m_incoming r)) modes value in
  get_value (m_incoming r) = drawn_incoming ctx smp /\
  m_value r = snd e /\
  m_probability r == fst e.
Proof.
  intros Hd Hb Hy Hon r e.
  pose proof (transform_to_parent_height (m_shading_basis smp)
                (drawn_direction ctx) Hb) as Hh.
  fold (drawn_incoming ctx smp) in Hh.
  assert (0 <= dot (drawn_incoming ctx smp) (get_normal (m_shading_basis smp)))
    as Hin by lra.
  destruct (Qeq_dec (m_roughness data) 0) as [Hr|Hr].
  - assert (r = finish_sample smp
                  (numbers
                     (spectrum_scale (m_reflectance data)
                        (m_reflectance_multiplier data * RcpPi)))
                  (drawn_direction ctx) (drawn_incoming ctx smp)) as Er
      by (apply sample_lambertian; assumption).
    subst e. rewrite Er, finish_sample_incoming.
    rewrite evaluate_lambertian by assumption.
    split; [reflexivity|]. split; [reflexivity|]. simpl. rewrite Hh. reflexivity.
  - specialize (Hon Hr).
    assert (r = finish_sample smp
                  (oren_nayar_qualitative
                     (dot (get_value (m_outgoing smp)) (get_normal (m_shading_basis smp)))
                     (dot (drawn_incoming ctx smp) (get_normal (m_shading_basis smp)))
                     (m_roughness data) (m_reflectance data)
                     (m_reflectance_multiplier data)
                     (get_value (m_outgoing smp)) (drawn_incoming ctx smp)
                     (get_normal (m_shading_basis smp)))
                  (drawn_direction ctx) (drawn_incoming ctx smp)) as Er
      by (apply sample_rough; assumption).
    subst e. rewrite Er, finish_sample_incoming.
    rewrite evaluate_rough by assumption.
    split; [reflexivity|]. split; [reflexivity|]. simpl. rewrite Hh. reflexivity.
Qed.

(** X5.  [sample] consumes one 2D sample of the stream whenever diffuse
    scattering is requested, also when it rejects the direction, and none
    otherwise; it never changes the shading basis or the outgoing direction
    of the record. *)
Theorem sample_stream_and_inputs ctx data adjoint cosine_mult modes smp :
  let r := sample ctx data adjoint cosine_mult modes smp in
  fst r = (if ScatteringMode.has_diffuse modes
           then snd (next2 (split_in_place ctx 2 1)) else ctx) /\
  m_shading_basis (snd r) = m_shading_basis smp /\
  m_outgoing (snd r) = m_outgoing smp.
Proof.
  unfold sample.
  destruct (ScatteringMode.has_diffuse modes); simpl; [|auto].
  destruct (next2 (split_in_place ctx 2 1)) as [s ctx']. simpl.
  destruct (fne (m_roughness data) 0); [|auto].
  destruct (flt (dot (get_value (m_outgoing smp)) _) 0); [auto|].
  destruct (flt (dot (transform_to_parent _ _) _) 0); auto.
Qed.







(** X25.  On the rough branch, a direction along the shading normal has a
    projection of length zero onto the tangent plane; its normalization
    divides zero by zero, and [evaluate] returns, with the density of the
    incoming direction, a value whose components are all NaN. *)
Theorem along_normal_value_is_nan
    data adjoint cosine_mult gn basis outgoing incoming modes value :
  ScatteringMode.has_diffuse modes = true ->
  0 <= dot incoming (get_normal basis) ->
  ~ m_roughness data == 0 ->
  0 <= dot outgoing (get_normal basis) ->
  norm (project outgoing (get_normal basis)) == 0 \/
  norm (project incoming (get_normal basis)) == 0 ->
  let r := evaluate data adjoint cosine_mult gn basis outgoing incoming modes value in
  fst r = dot incoming (get_normal basis) * RcpPi /\
  Forall (fun v => v = None) (m_diffuse (snd r)) /\
  m_beauty (snd r) = m_diffuse (snd r) /\
  length (m_diffuse (snd r)) = length (m_reflectance data).
Proof.
  intros Hd Hin Hr Hon Hnan r. subst r.
  rewrite evaluate_rough by assumption. simpl.
  split; [reflexivity|].
  split; [apply oren_nayar_qualitative_nan, Hnan|].
  split; [reflexivity|].
  unfold oren_nayar_qualitative, clamp_low_in_place, scale_value.
  rewrite length_map.
  set (f := nan_map _ _). set (g := nan_map _ _).
  assert (forall (a b : Spectrum) (h k : Q -> option Q),
            length a = length b ->
            length (spectrum_add (map h a) (map k b)) = length a) as Hlen.
  { induction a as [|x a IH]; intros [|y b] h k E; simpl in *;
      try discriminate; [reflexivity|].
    destruct (h x), (k y); simpl; f_equal; apply IH; congruence. }
  apply Hlen.
  induction (m_reflectance data) as [|x l IH]; simpl; congruence.
Qed.

End OrenNayarFurther.

(** ** Further properties of the voxel AO surface shader *)

Section VoxelAOFurther.

Import Foundation VoxelAO.
Local Open Scope Q_scope.

Context `{Host}.

(** X7.  Thresholds with [0 <= low <= high], as looked up in the
    dictionary, are kept as they are and nothing is logged. *)
Theorem valid_thresholds_kept name (params : gmap string ParamValue) memory :
  let low := get_optional params "low_threshold" DefaultLowThreshold in
  let high := get_optional params "high_threshold" DefaultHighThreshold in
  0 <= low -> low <= high ->
  let r := VoxelAOSurfaceShader name params memory in
  m_low_threshold (fst r) = low /\ m_high_threshold (fst r) = high /\ snd r = [].
Proof.
  intros low high Hlow Hhigh. unfold VoxelAOSurfaceShader, extract_parameters.
  fold low high.
  assert (flt low 0.0 || flt high 0.0 || flt high low = false) as E.
  { assert (flt low 0.0 = false) as -> by (apply flt_false; lra).
    assert (flt high 0.0 = false) as -> by (apply flt_false; lra).
    assert (flt high low = false) as -> by (apply flt_false; lra).
    reflexivity. }
  rewrite E. simpl. auto.
Qed.

(** [evaluate] on a shader without a voxel tree. *)
Lemma evaluate_without_tree (s : Shader) ctx isect sp :
  m_voxel_tree s = None -> evaluate s ctx isect sp = None.
Proof. intros E. unfold evaluate. rewrite E. reflexivity. Qed.

(** X8.  Whatever the dictionary, a newly constructed shader has thresholds
    with [0 <= low <= high], carries the name it was given, has cached no
    version and owns no voxel tree; [evaluate] on it fails its first
    assertion. *)
Theorem constructed_shader_state name params memory ctx isect sp :
  let s := fst (VoxelAOSurfaceShader name params memory) in
  0 <= m_low_threshold s /\ m_low_threshold s <= m_high_threshold s /\
  m_name s = name /\
  m_last_geometry_version_id s = InvalidVersionID /\
  m_last_asm_inst_version_id s = InvalidVersionID /\
  m_voxel_tree s = None /\ m_voxel_tree_intersector s = None /\
  evaluate s ctx isect sp = None.
Proof.
  intros s.
  destruct (constructor_thresholds_valid name params memory) as [Hl Hh].
  destruct (constructor_versions_invalid name params memory)
    as (Hg & Ha & Ht & Hi).
  fold s in Hl, Hh, Hg, Ha, Ht, Hi.
  repeat (split; [assumption|]). split.
  - subst s. unfold VoxelAOSurfaceShader, extract_parameters.
    destruct (flt _ 0.0 || flt _ 0.0 || flt _ _); reflexivity.
  - repeat (split; [assumption|]). apply evaluate_without_tree, Ht.
Qed.

(** X9.  A second [on_frame_begin] on the same scene does nothing: it
    returns the shader the first one returned and causes no event. *)
Theorem on_frame_begin_twice (scene : Scene) (s : Shader) :
  let s1 := fst (on_frame_begin scene s) in
  on_frame_begin scene s1 = (s1, []).
Proof.
  intros s1. apply on_frame_begin_unchanged; subst s1; unfold on_frame_begin;
    destruct (negb _ || negb _) eqn:E; simpl; try reflexivity;
    apply orb_false_elim in E as [E1 E2];
    apply negb_false_iff, N.eqb_eq in E1, E2; assumption.
Qed.

(** X10.  The events of [on_frame_begin] are, in this order: the build of
    the voxel tree, the dump of its solid leaves when an output file name
    is set, the build of the intersector; or none at all, together with an
    unchanged shader.  The tree is never written to disk without a
    rebuild, nor with an empty file name. *)
Theorem on_frame_begin_events (scene : Scene) (s : Shader) :
  let r := on_frame_begin scene s in
  (r = (s, [])) \/
  (m_output_filename s = EmptyString /\
   snd r = [BuildVoxelTree (m_max_voxel_extent s); BuildVoxelTreeIntersector]) \/
  (m_output_filename s <> EmptyString /\
   snd r = [BuildVoxelTree (m_max_voxel_extent s);
            DumpSolidLeaves (m_output_filename s);
            BuildVoxelTreeIntersector]).
Proof.
  unfold on_frame_begin.
  destruct (negb _ || negb _); [|left; reflexivity].
  right. simpl.
  destruct (String.eqb_spec (m_output_filename s) EmptyString) as [E|Hne].
  - left. split; [exact E | reflexivity].
  - right. split; [exact Hne | reflexivity].
Qed.

(** X11.  After a rebuild the sample count of the blend mode is at least
    one, and two such counts do not exceed the configured number of samples
    as soon as that number is at least two; with fewer than two samples
    configured the blend mode takes one sample per estimator. *)
Theorem half_samples_bounds (scene : Scene) (s : Shader) :
  get_geometry_version_id scene <> m_last_geometry_version_id s \/
  get_assembly_instances_version_id scene <> m_last_asm_inst_version_id s ->
  let s' := fst (on_frame_begin scene s) in
  (1 <= m_half_samples s')%N /\
  (2 <= m_samples s -> 2 * m_half_samples s' <= m_samples s)%N /\
  (m_samples s < 2 -> m_half_samples s' = 1)%N.
Proof.
  intros Hne. unfold on_frame_begin.
  rewrite (on_frame_begin_guard _ _ Hne). simpl.
  pose proof (N.Div0.mul_div_le (m_samples s) 2) as Hle.
  destruct (N.ltb_spec (m_samples s / 2) 1) as [Hlt|Hge].
  - split; [lia|]. split; [|reflexivity].
    intros H2. assert (1 <= m_samples s / 2)%N; [|lia].
    apply N.div_le_lower_bound; lia.
  - split; [lia|]. split; [lia|].
    intros H2. assert (m_samples s / 2 = 0)%N; [|lia].
    apply N.div_small. exact H2.
Qed.

(** X12.  A frame on a scene whose two version counters both hold
    [InvalidVersionID] does not build the tree of a newly constructed
    shader: the shader stays as constructed and [evaluate] keeps failing
    its first assertion. *)
Theorem sentinel_versions_skip_build name params memory (scene : Scene) ctx isect sp :
  get_geometry_version_id scene = InvalidVersionID ->
  get_assembly_instances_version_id scene = InvalidVersionID ->
  let s := fst (VoxelAOSurfaceShader name params memory) in
  on_frame_begin scene s = (s, []) /\
  evaluate (fst (on_frame_begin scene s)) ctx isect sp = None.
Proof.
  intros Hg Ha s.
  destruct (constructor_versions_invalid name params memory)
    as (Eg & Ea & Et & _).
  fold s in Eg, Ea, Et.
  assert (on_frame_begin scene s = (s, [])) as E
    by (apply on_frame_begin_unchanged; congruence).
  split; [exact E|]. rewrite E. simpl. apply evaluate_without_tree, Et.
Qed.

(** X14.  When the ray along the geometric normal hits nothing, [evaluate]
    takes the fast mode: it calls the fast estimator only, from the origin
    shifted along the normal, with the full sample count, and returns blue
    with diagnostics enabled and the accessibility otherwise. *)
Theorem clear_normal_takes_fast_mode (s : Shader) tree ti ctx isect sp backtrack :
  m_voxel_tree s = Some tree ->
  m_voxel_tree_intersector s = Some ti ->
  trace ti (exit_ray sp) false = Some backtrack ->
  trace ti (normal_ray s sp backtrack) true = None ->
  let origin :=
    vadd (backed_off_origin sp backtrack)
      (vscale (get_geometric_normal sp) (m_diag_length s)) in
  let fast :=
    compute_fast_ambient_occlusion ctx ti origin (get_geometric_normal sp)
      (get_shading_basis sp) (m_max_distance s) (m_samples s) in
  evaluate s ctx isect sp
  = Some (snd fast,
          if m_enable_diagnostics s
          then mkShadingResult ColorSpaceLinearRGB 1 0 0 1
          else accessibility_result (fst (fst fast))).
Proof.
  intros Ht Hi Hexit Hnormal origin fast.
  unfold evaluate, measure_clearance. rewrite Ht, Hi.
  fold (exit_ray sp). rewrite Hexit.
  change (trace ti (normal_ray s sp backtrack) true = None) in Hnormal.
  unfold normal_ray, backed_off_origin in Hnormal. simpl.
  rewrite Hnormal.
  rewrite select_mode_fast by lra.
  fold (backed_off_origin sp backtrack). fold origin. fold fast.
  destruct fast as [[o d] c]. simpl.
  destruct (m_enable_diagnostics s); reflexivity.
Qed.

(** The blend factor lies between 0 and 1. *)
Lemma blend_factor_unit (s : Shader) (clearance k : Q) :
  select_mode s clearance = BlendMode k -> 0 <= k /\ k <= 1.
Proof.
  unfold select_mode.
  destruct (fge clearance (m_fast_threshold s)) eqn:Hf; [discriminate|].
  destruct (flt clearance (m_classic_threshold s)) eqn:Hc; [discriminate|].
  intros E. inversion E as [Ek]. clear E Ek.
  apply fge_false in Hf. apply flt_false in Hc.
  unfold linearstep.
  destruct (fle clearance (m_classic_threshold s)) eqn:Hle; [lra|].
  apply fle_false in Hle.
  assert (fge clearance (m_fast_threshold s) = false) as ->
    by (apply fge_false; exact Hf).
  split.
  - apply Qle_shift_div_l; lra.
  - apply Qle_shift_div_r; lra.
Qed.

(** X15.  Every result of [evaluate] is in linear RGB with alpha 1; without
    diagnostics it is grey, its three channels being equal. *)
Theorem evaluate_result_shape (s : Shader) ctx isect sp ctx' res :
  evaluate s ctx isect sp = Some (ctx', res) ->
  m_color_space res = ColorSpaceLinearRGB /\ m_alpha res = 1 /\
  (m_enable_diagnostics s = false ->
   m_color0 res = m_color1 res /\ m_color1 res = m_color2 res).
Proof.
  unfold evaluate.
  destruct (m_voxel_tree s); [|discriminate].
  destruct (m_voxel_tree_intersector s) as [ti|]; [|discriminate].
  destruct (measure_clearance s ti sp) as [[origin clearance]|]; [|discriminate].
  destruct (select_mode s clearance) as [| |k].
  - destruct (compute_fast_ambient_occlusion _ _ _ _ _ _ _) as [[o d] c].
    destruct (m_enable_diagnostics s); intros E; inversion E; subst; simpl;
      repeat split; discriminate.
  - destruct (compute_ambient_occlusion _ _ _ _ _ _ _ _) as [o c].
    destruct (m_enable_diagnostics s); intros E; inversion E; subst; simpl;
      repeat split; discriminate.
  - destruct (compute_ambient_occlusion _ _ _ _ _ _ _ _) as [o c].
    destruct (compute_fast_ambient_occlusion _ _ _ _ _ _ _) as [[o' d] c'].
    destruct (m_enable_diagnostics s); intros E; inversion E; subst; simpl;
      repeat split; discriminate.
Qed.

(** X16.  When both occlusion estimators return values between 0 and 1,
    every colour channel [evaluate] writes lies between 0 and 1, in all
    three modes, with and without diagnostics. *)
Theorem evaluate_channels_unit (s : Shader) ctx isect sp ctx' res :
  (forall c ti o n b d k,
     unit_channel (fst (fst (compute_fast_ambient_occlusion c ti o n b d k)))) ->
  (forall c i p n b d k sp',
     unit_channel (fst (compute_ambient_occlusion c i p n b d k sp'))) ->
  evaluate s ctx isect sp = Some (ctx', res) ->
  unit_channel (m_color0 res) /\ unit_channel (m_color1 res) /\
  unit_channel (m_color2 res).
Proof.
  intros Hfast Hclassic. unfold evaluate.
  destruct (m_voxel_tree s); [|discriminate].
  destruct (m_voxel_tree_intersector s) as [ti|]; [|discriminate].
  destruct (measure_clearance s ti sp) as [[origin clearance]|]; [|discriminate].
  destruct (select_mode s clearance) as [| |k] eqn:Hmode.
  - match goal with |- context [compute_fast_ambient_occlusion ?a ?b ?c ?d ?e ?f ?g] =>
      pose proof (Hfast a b c d e f g) as [Hlo Hhi];
      destruct (compute_fast_ambient_occlusion a b c d e f g) as [[o dd] cc]
    end.
    simpl in Hlo, Hhi.
    destruct (m_enable_diagnostics s); intros E; inversion E; subst;
      unfold unit_channel; simpl; repeat split; lra.
  - match goal with |- context [compute_ambient_occlusion ?a ?b ?c ?d ?e ?f ?g ?h] =>
      pose proof (Hclassic a b c d e f g h) as [Hlo Hhi];
      destruct (compute_ambient_occlusion a b c d e f g h) as [o cc]
    end.
    simpl in Hlo, Hhi.
    destruct (m_enable_diagnostics s); intros E; inversion E; subst;
      unfold unit_channel; simpl; repeat split; lra.
  - destruct (blend_factor_unit s clearance k Hmode) as [Hk0 Hk1].
    match goal with |- context [compute_ambient_occlusion ?a ?b ?c ?d ?e ?f ?g ?h] =>
      pose proof (Hclassic a b c d e f g h) as [Hlo Hhi];
      destruct (compute_ambient_occlusion a b c d e f g h) as [o cc]
    end.
    match goal with |- context [compute_fast_ambient_occlusion ?a ?b ?c ?d ?e ?f ?g] =>
      pose proof (Hfast a b c d e f g) as [Hlo' Hhi'];
      destruct (compute_fast_ambient_occlusion a b c d e f g) as [[o' dd] cc']
    end.
    simpl in Hlo, Hhi, Hlo', Hhi'.
    destruct (m_enable_diagnostics s); intros E; inversion E; subst;
      unfold unit_channel; simpl; repeat split; nra.
Qed.

(** X22.  The first frame of a newly constructed shader, on a scene one of
    whose version counters is valid and whose voxel tree has a non-negative
    diagonal length, leaves a shader that owns its tree and intersector and
    whose world space thresholds satisfy
    [0 <= classic_threshold <= fast_threshold]. *)
Theorem first_frame_establishes_thresholds name params memory (scene : Scene) :
  get_geometry_version_id scene <> InvalidVersionID \/
  get_assembly_instances_version_id scene <> InvalidVersionID ->
  (forall extent, 0 <= get_max_diag_length (new_AOVoxelTree scene extent)) ->
  let s := fst (on_frame_begin scene (fst (VoxelAOSurfaceShader name params memory))) in
  0 <= m_classic_threshold s /\
  m_classic_threshold s <= m_fast_threshold s /\
  (exists tree, m_voxel_tree s = Some tree) /\
  (exists ti, m_voxel_tree_intersector s = Some ti).
Proof.
  intros Hver Hdiag.
  set (s0 := fst (VoxelAOSurfaceShader name params memory)).
  destruct (constructor_versions_invalid name params memory) as (Eg & Ea & _).
  destruct (constructor_thresholds_valid name params memory) as [Hl Hh].
  fold s0 in Eg, Ea, Hl, Hh.
  assert (get_geometry_version_id scene <> m_last_geometry_version_id s0 \/
          get_assembly_instances_version_id scene <> m_last_asm_inst_version_id s0)
    as Hne by (rewrite Eg, Ea; exact Hver).
  intros s. subst s. unfold on_frame_begin.
  rewrite (on_frame_begin_guard _ _ Hne). simpl.
  pose proof (Hdiag (m_max_voxel_extent s0)) as Hd.
  set (d := get_max_diag_length _) in *.
  assert (0 <= 1.0 + 1.0e-5) as Hk by (vm_compute; discriminate).
  set (k := 1.0 + 1.0e-5) in *.
  assert (0 <= d * k) by nra.
  split; [nra|]. split; [nra|]. split; eexists; reflexivity.
Qed.

End VoxelAOFurther.

(** ** Further properties of the pixel variation AOV *)

Section PixelVariationFurther.

Import Foundation PixelVariation.
Local Open Scope Q_scope.

(** A crop window whose maximum lies before its minimum, in a row or in a
    column, holds no pixel. *)
Lemma empty_window_pixels (crop_window : AABB2u) :
  (x (max crop_window) < x (min crop_window) \/
   y (max crop_window) < y (min crop_window))%nat ->
  window_pixels crop_window = [].
Proof.
  intros Hempty. unfold window_pixels, range.
  destruct Hempty as [Hx|Hy].
  - replace (S (x (max crop_window)) - x (min crop_window))%nat with 0%nat by lia.
    simpl. induction (seq _ _) as [|py ys IH]; [reflexivity|].
    rewrite bind_cons, IH. reflexivity.
  - replace (S (y (max crop_window)) - y (min crop_window))%nat with 0%nat by lia.
    reflexivity.
Qed.

(** X17.  On an empty crop window, one whose maximum lies before its
    minimum in x or in y, [post_process_image] returns the image as it
    is. *)
Theorem empty_window_untouched (frame : Frame)
    (m_image : gmap (nat * nat) Color3f) :
  let crop_window := get_crop_window frame in
  (x (max crop_window) < x (min crop_window) \/
   y (max crop_window) < y (min crop_window))%nat ->
  post_process_image frame m_image = m_image.
Proof.
  intros crop_window Hempty. unfold post_process_image. fold crop_window.
  destruct (fne _ 0.0); rewrite for_each_pixel_flat,
    (empty_window_pixels crop_window Hempty); reflexivity.
Qed.

(** The pixel [post_process_image] leaves at a position of the window. *)
Lemma post_process_image_inside (frame : Frame)
    (m_image : gmap (nat * nat) Color3f) (px py : nat) :
  in_window (get_crop_window frame) px py ->
  get_pixel (post_process_image frame m_image) px py
  = if fne (find_max_variation (get_crop_window frame) m_image) 0.0
    then lerp_color Blue Red
           (fit (c0 (get_pixel m_image px py)) 0.0
              (find_max_variation (get_crop_window frame) m_image) 0.0 1.0)
    else Blue.
Proof.
  intros Hin. unfold get_pixel at 1. rewrite post_process_image_lookup.
  destruct (decide ((px, py) ∈ window_pixels (get_crop_window frame)))
    as [_|Hout]; [reflexivity|].
  exfalso. apply Hout, elem_of_window_pixels, Hin.
Qed.

(** The channels of an interpolation between blue and red. *)
Lemma lerp_color_channels (t : Q) :
  c0 (lerp_color Blue Red t) == t /\
  c1 (lerp_color Blue Red t) == 0 /\
  c2 (lerp_color Blue Red t) == 1 - t.
Proof.
  unfold lerp_color, lerp, Blue, Red. simpl.
  assert (0.0 == 0) as E0 by reflexivity.
  assert (1.0 == 1) as E1 by reflexivity.
  rewrite E0, E1. repeat split; ring.
Qed.

(** The red channel [post_process_image] leaves in the window: the
    variation over the maximum, or zero when the maximum is zero. *)
Lemma post_process_image_red (frame : Frame)
    (m_image : gmap (nat * nat) Color3f) (px py : nat) :
  in_window (get_crop_window frame) px py ->
  let max_variation := find_max_variation (get_crop_window frame) m_image in
  let out := get_pixel (post_process_image frame m_image) px py in
  (max_variation == 0 -> out = Blue) /\
  (~ max_variation == 0 ->
   0 < max_variation /\
   out = lerp_color Blue Red
           (fit (c0 (get_pixel m_image px py)) 0.0 max_variation 0.0 1.0) /\
   c0 out == c0 (get_pixel m_image px py) / max_variation).
Proof.
  intros Hin max_variation out. subst out.
  rewrite (post_process_image_inside frame m_image px py Hin).
  fold max_variation. split.
  - intros Hz.
    assert (fne max_variation 0.0 = false) as ->
      by (apply fne_false; rewrite Hz; reflexivity).
    reflexivity.
  - intros Hnz.
    assert (fne max_variation 0.0 = true) as ->.
    { apply fne_true. intros E. apply Hnz. rewrite E. reflexivity. }
    pose proof (find_max_variation_nonnegative (get_crop_window frame) m_image)
      as Hge.
    fold max_variation in Hge.
    split; [lra|]. split; [reflexivity|].
    destruct (lerp_color_channels
                (fit (c0 (get_pixel m_image px py)) 0.0 max_variation 0.0 1.0))
      as (E & _ & _).
    rewrite E. apply fit_unit_interval, Hnz.
Qed.

(** X18.  Every pixel [post_process_image] writes lies on the line from
    blue to red: its green channel is zero and its red and blue channels
    add up to one.  Its red channel never exceeds one, and, the maximum
    being non-zero, it is non-negative exactly when the variation of the
    pixel is: the range the source asserts holds for non-negative
    variations only. *)
Theorem processed_pixel_on_gradient (frame : Frame)
    (m_image : gmap (nat * nat) Color3f) (px py : nat) :
  in_window (get_crop_window frame) px py ->
  let max_variation := find_max_variation (get_crop_window frame) m_image in
  let out := get_pixel (post_process_image frame m_image) px py in
  c1 out == 0 /\ c0 out + c2 out == 1 /\ c0 out <= 1 /\
  (~ max_variation == 0 ->
   (0 <= c0 out <-> 0 <= c0 (get_pixel m_image px py))).
Proof.
  intros Hin max_variation out.
  destruct (post_process_image_red frame m_image px py Hin) as [Hzero Hnonzero].
  fold max_variation in Hzero, Hnonzero. fold out in Hzero, Hnonzero.
  pose proof (find_max_variation_bound (get_crop_window frame) m_image px py Hin)
    as Hbound.
  fold max_variation in Hbound.
  destruct (Qeq_dec max_variation 0) as [Hz|Hnz].
  - rewrite (Hzero Hz). unfold Blue. simpl.
    repeat split; try reflexivity; try discriminate. contradiction.
  - destruct (Hnonzero Hnz) as (Hpos & Eout & Ered).
    destruct (lerp_color_channels
                (fit (c0 (get_pixel m_image px py)) 0.0 max_variation 0.0 1.0))
      as (E0 & E1 & E2).
    rewrite <- Eout in E0, E1, E2.
    split; [exact E1|]. split; [rewrite E0, E2; ring|].
    assert (c0 (get_pixel m_image px py) / max_variation <= 1) as Hle
      by (apply Qle_shift_div_r; lra).
    split; [lra|]. intros _. rewrite Ered. split.
    + intros Hc.
      assert (c0 (get_pixel m_image px py)
              == c0 (get_pixel m_image px py) / max_variation * max_variation)
        as E by (field; exact Hnz).
      rewrite E. nra.
    + intros Hv. apply Qle_shift_div_l; lra.
Qed.

(** X19.  Of two pixels of the window, the one with the larger variation
    comes out at least as red and at most as blue. *)
Theorem larger_variation_is_redder (frame : Frame)
    (m_image : gmap (nat * nat) Color3f) (px py qx qy : nat) :
  in_window (get_crop_window frame) px py ->
  in_window (get_crop_window frame) qx qy ->
  c0 (get_pixel m_image px py) <= c0 (get_pixel m_image qx qy) ->
  let result := post_process_image frame m_image in
  c0 (get_pixel result px py) <= c0 (get_pixel result qx qy) /\
  c2 (get_pixel result qx qy) <= c2 (get_pixel result px py).
Proof.
  intros Hp Hq Hle result.
  destruct (post_process_image_red frame m_image px py Hp) as [Hpz Hpn].
  destruct (post_process_image_red frame m_image qx qy Hq) as [Hqz Hqn].
  fold result in Hpz, Hpn, Hqz, Hqn.
  destruct (Qeq_dec (find_max_variation (get_crop_window frame) m_image) 0)
    as [Hz|Hnz].
  - rewrite (Hpz Hz), (Hqz Hz). split; lra.
  - destruct (Hpn Hnz) as (Hpos & Ep & _).
    destruct (Hqn Hnz) as (_ & Eq & _).
    rewrite Ep, Eq.
    set (mv := find_max_variation (get_crop_window frame) m_image) in *.
    destruct (lerp_color_channels (fit (c0 (get_pixel m_image px py)) 0.0 mv 0.0 1.0))
      as (P0 & _ & P2).
    destruct (lerp_color_channels (fit (c0 (get_pixel m_image qx qy)) 0.0 mv 0.0 1.0))
      as (Q0 & _ & Q2).
    rewrite P0, P2, Q0, Q2, !fit_unit_interval by exact Hnz.
    assert (c0 (get_pixel m_image px py) / mv <= c0 (get_pixel m_image qx qy) / mv)
      as Hdiv.
    { unfold Qdiv. apply Qmult_le_compat_r; [exact Hle|].
      apply Qlt_le_weak, Qinv_lt_0_compat, Hpos. }
    split; lra.
Qed.

Lemma color_eq_refl (a : Color3f) : color_eq a a.
Proof. unfold color_eq. repeat split; reflexivity. Qed.

(** The maximum found is zero or the variation of a pixel of the window,
    up to the equality of rationals. *)
Lemma find_max_variation_cases crop_window m_image :
  find_max_variation crop_window m_image == 0 \/
  exists px py, in_window crop_window px py /\
    find_max_variation crop_window m_image == c0 (get_pixel m_image px py).
Proof.
  destruct (find_max_variation_attained crop_window m_image)
    as [E|(px & py & Hin & E)].
  - left. rewrite E. reflexivity.
  - right. exists px, py. split; [exact Hin|]. rewrite E. reflexivity.
Qed.

(** X20.  On a variance image [post_process_image] is idempotent: a second
    pass gives every pixel of the window the colour the first pass gave
    it, and leaves the rest of the image as the first pass left it. *)
Theorem post_process_image_idempotent (frame : Frame)
    (m_image : gmap (nat * nat) Color3f) :
  let crop_window := get_crop_window frame in
  let once := post_process_image frame m_image in
  let twice := post_process_image frame once in
  (forall px py, in_window crop_window px py ->
     0 <= c0 (get_pixel m_image px py)) ->
  (forall px py, in_window crop_window px py ->
     color_eq (get_pixel twice px py) (get_pixel once px py)) /\
  (forall px py, ~ in_window crop_window px py ->
     twice !! (px, py) = once !! (px, py)).
Proof.
  intros crop_window once twice Hvar. split.
  2:{ intros px py Hout. unfold twice. rewrite post_process_image_lookup.
      fold crop_window.
      destruct (decide ((px, py) ∈ window_pixels crop_window)) as [Hin|_];
        [|reflexivity].
      exfalso. apply Hout, elem_of_window_pixels, Hin. }
  set (mv := find_max_variation crop_window m_image).
  set (mv1 := find_max_variation crop_window once).
  assert (forall px py, in_window crop_window px py ->
            (mv == 0 -> get_pixel once px py = Blue) /\
            (~ mv == 0 ->
             0 < mv /\
             get_pixel once px py
             = lerp_color Blue Red
                 (fit (c0 (get_pixel m_image px py)) 0.0 mv 0.0 1.0) /\
             c0 (get_pixel once px py) == c0 (get_pixel m_image px py) / mv))
    as Honce
    by (intros px py Hin; apply (post_process_image_red frame m_image px py Hin)).
  assert (forall px py, in_window crop_window px py ->
            (mv1 == 0 -> get_pixel twice px py = Blue) /\
            (~ mv1 == 0 ->
             0 < mv1 /\
             get_pixel twice px py
             = lerp_color Blue Red
                 (fit (c0 (get_pixel once px py)) 0.0 mv1 0.0 1.0) /\
             c0 (get_pixel twice px py) == c0 (get_pixel once px py) / mv1))
    as Htwice
    by (intros px py Hin; apply (post_process_image_red frame once px py Hin)).
  intros px py Hin.
  destruct (Qeq_dec mv 0) as [Hz|Hnz].
  - (* nothing varies: blue after the first pass, blue after the second *)
    assert (mv1 == 0) as Hz1.
    { destruct (find_max_variation_cases crop_window once)
        as [E|(qx & qy & Hq & E)]; [exact E|].
      fold mv1 in E. rewrite E.
      rewrite (proj1 (Honce qx qy Hq) Hz). reflexivity. }
    rewrite (proj1 (Htwice px py Hin) Hz1), (proj1 (Honce px py Hin) Hz).
    apply color_eq_refl.
  - (* the first pass maps the maximum to one *)
    assert (0 < mv) as Hpos by (apply (proj2 (Honce px py Hin) Hnz)).
    assert (forall qx qy, in_window crop_window qx qy ->
              0 <= c0 (get_pixel once qx qy) <= 1) as Hunit.
    { intros qx qy Hq.
      destruct (proj2 (Honce qx qy Hq) Hnz) as (_ & _ & E).
      pose proof (Hvar qx qy Hq) as H0.
      pose proof (find_max_variation_bound crop_window m_image qx qy Hq) as Hb.
      fold mv in Hb. rewrite E. split.
      - apply Qle_shift_div_l; lra.
      - apply Qle_shift_div_r; lra. }
    assert (mv1 == 1) as H1.
    { apply Qle_antisym.
      - destruct (find_max_variation_cases crop_window once)
          as [E|(qx & qy & Hq & E)]; fold mv1 in E; rewrite E; [lra|].
        apply Hunit, Hq.
      - destruct (find_max_variation_cases crop_window m_image)
          as [E|(qx & qy & Hq & E)]; fold mv in E; [contradiction|].
        pose proof (find_max_variation_bound crop_window once qx qy Hq) as Hb.
        fold mv1 in Hb.
        destruct (proj2 (Honce qx qy Hq) Hnz) as (_ & _ & Eq).
        assert (c0 (get_pixel once qx qy) == 1) as Eone.
        { rewrite Eq, <- E. field. exact Hnz. }
        lra. }
    assert (~ mv1 == 0) as Hnz1 by lra.
    destruct (proj2 (Htwice px py Hin) Hnz1) as (_ & E2 & _).
    destruct (proj2 (Honce px py Hin) Hnz) as (_ & E1 & Ered).
    rewrite E2. rewrite E1 at 2.
    apply lerp_color_proper.
    rewrite !fit_unit_interval by assumption.
    rewrite Ered, H1. field. exact Hnz.
Qed.

(** X21.  The normalisation removes the scale: multiplying every variation
    of the window by the same positive factor gives every pixel of the
    window the same colour. *)
Theorem post_process_image_scale_invariant (frame : Frame)
    (m_image scaled : gmap (nat * nat) Color3f) (k : Q) :
  let crop_window := get_crop_window frame in
  0 < k ->
  (forall px py, in_window crop_window px py ->
     c0 (get_pixel scaled px py) == k * c0 (get_pixel m_image px py)) ->
  forall px py, in_window crop_window px py ->
    color_eq (get_pixel (post_process_image frame scaled) px py)
      (get_pixel (post_process_image frame m_image) px py).
Proof.
  intros crop_window Hk Hscaled px py Hin.
  set (mv := find_max_variation crop_window m_image).
  set (mv' := find_max_variation crop_window scaled).
  pose proof (find_max_variation_nonnegative crop_window m_image) as Hge.
  pose proof (find_max_variation_nonnegative crop_window scaled) as Hge'.
  fold mv in Hge. fold mv' in Hge'.
  assert (mv' == k * mv) as Hmax.
  { apply Qle_antisym.
    - destruct (find_max_variation_cases crop_window scaled)
        as [E|(qx & qy & Hq & E)]; fold mv' in E; rewrite E; [nra|].
      rewrite (Hscaled qx qy Hq).
      pose proof (find_max_variation_bound crop_window m_image qx qy Hq) as Hb.
      fold mv in Hb. nra.
    - destruct (find_max_variation_cases crop_window m_image)
        as [E|(qx & qy & Hq & E)]; fold mv in E; rewrite E; [lra|].
      pose proof (find_max_variation_bound crop_window scaled qx qy Hq) as Hb.
      fold mv' in Hb. rewrite (Hscaled qx qy Hq) in Hb. exact Hb. }
  destruct (post_process_image_red frame m_image px py Hin) as [Hz Hn].
  destruct (post_process_image_red frame scaled px py Hin) as [Hz' Hn'].
  fold crop_window in Hz, Hn, Hz', Hn'. fold mv in Hz, Hn. fold mv' in Hz', Hn'.
  destruct (Qeq_dec mv 0) as [E|Hnz].
  - assert (mv' == 0) as E' by (rewrite Hmax, E; ring).
    rewrite (Hz E), (Hz' E'). apply color_eq_refl.
  - assert (~ mv' == 0) as Hnz'.
    { rewrite Hmax. intros E. apply Hnz.
      assert (mv == k * mv / k) as -> by (field; lra).
      rewrite E. field. lra. }
    destruct (Hn Hnz) as (_ & Eout & _).
    destruct (Hn' Hnz') as (_ & Eout' & _).
    rewrite Eout, Eout'. apply lerp_color_proper.
    rewrite !fit_unit_interval by assumption.
    rewrite (Hscaled px py Hin), Hmax. field. split; lra.
Qed.

(** X23.  A window whose pixels all hold the same positive variation comes
    out red throughout, not blue: the common value is the maximum. *)
Theorem uniform_variation_is_red (frame : Frame)
    (m_image : gmap (nat * nat) Color3f) (v : Q) :
  let crop_window := get_crop_window frame in
  0 < v ->
  (forall px py, in_window crop_window px py -> c0 (get_pixel m_image px py) == v) ->
  forall px py, in_window crop_window px py ->
    color_eq (get_pixel (post_process_image frame m_image) px py) Red.
Proof.
  intros crop_window Hv Hsame px py Hin.
  set (mv := find_max_variation crop_window m_image).
  assert (mv == v) as Hmax.
  { pose proof (find_max_variation_bound crop_window m_image px py Hin) as Hb.
    fold mv in Hb. rewrite (Hsame px py Hin) in Hb.
    destruct (find_max_variation_cases crop_window m_image)
      as [E|(qx & qy & Hq & E)]; fold mv in E.
    - lra.
    - rewrite E. apply Hsame, Hq. }
  assert (~ mv == 0) as Hnz by lra.
  destruct (post_process_image_red frame m_image px py Hin) as [_ Hn].
  fold crop_window in Hn. fold mv in Hn.
  destruct (Hn Hnz) as (_ & Eout & _). rewrite Eout.
  eapply color_eq_trans; [apply lerp_color_proper|apply lerp_color_ends].
  rewrite fit_unit_interval by exact Hnz.
  rewrite (Hsame px py Hin), Hmax. field. lra.
Qed.

(** X24.  [post_process_image] reads the first channel only: two images
    whose first channels agree on the window are given the same pixels on
    the window, whatever their other channels hold. *)
Theorem post_process_image_first_channel (frame : Frame)
    (m_image other : gmap (nat * nat) Color3f) :
  let crop_window := get_crop_window frame in
  (forall px py, in_window crop_window px py ->
     c0 (get_pixel other px py) = c0 (get_pixel m_image px py)) ->
  forall px py, in_window crop_window px py ->
    get_pixel (post_process_image frame other) px py
    = get_pixel (post_process_image frame m_image) px py.
Proof.
  intros crop_window Hsame px py Hin.
  assert (find_max_variation crop_window other
          = find_max_variation crop_window m_image) as Hmax.
  { rewrite !find_max_variation_flat.
    apply (running_max_ext
             (fun p => c0 (get_pixel other (fst p) (snd p)))
             (fun p => c0 (get_pixel m_image (fst p) (snd p)))).
    intros [qx qy] Hq. simpl. apply Hsame, elem_of_window_pixels, Hq. }
  rewrite !post_process_image_inside by exact Hin.
  fold crop_window. rewrite Hmax, (Hsame px py Hin). reflexivity.
Qed.

End PixelVariationFurther.

(** *** The further properties on concrete inputs *)

Section OrenNayarFurtherRuns.

Import Foundation OrenNayar Examples.
Local Open Scope Q_scope.

Lemma density_nonnegative_witness :
  0 <= fst (@evaluate libm_rational rough_values false false up basis_up up up
              ScatteringMode.Diffuse zero_value)
  /\ 0 <= @evaluate_pdf libm_rational rough_values up basis_up up up
            ScatteringMode.Diffuse.
Proof.
  apply (@density_nonnegative libm_rational rough_values false false up
           basis_up up up ScatteringMode.Diffuse zero_value).
  vm_compute. discriminate.
Defined.

Lemma evaluate_pdf_zero_iff_witness :
  @evaluate_pdf libm_rational rough_values up basis_up down up
    ScatteringMode.Diffuse == 0 <->
  ScatteringMode.has_diffuse ScatteringMode.Diffuse = false \/
  dot up (get_normal basis_up) <= 0 \/
  (~ m_roughness rough_values == 0 /\ dot down (get_normal basis_up) < 0).
Proof.
  apply (@evaluate_pdf_zero_iff libm_rational rough_values up basis_up down up
           ScatteringMode.Diffuse).
  vm_compute. reflexivity.
Defined.

Lemma smooth_ignores_outgoing_witness :
  @evaluate libm_rational smooth_values false false up basis_up up up
    ScatteringMode.Diffuse zero_value
  = @evaluate libm_rational smooth_values false false up basis_up down up
      ScatteringMode.Diffuse zero_value
  /\ @evaluate_pdf libm_rational smooth_values up basis_up up up
       ScatteringMode.Diffuse
     = @evaluate_pdf libm_rational smooth_values up basis_up down up
         ScatteringMode.Diffuse.
Proof.
  apply (@smooth_ignores_outgoing libm_rational smooth_values false false up
           basis_up up down up ScatteringMode.Diffuse zero_value).
  vm_compute. reflexivity.
Defined.

Lemma sample_agrees_with_evaluate_witness :
  let ctx : @SamplingContext brdf_host := [mkVector2 0 0] in
  let smp := fresh_sample up in
  let r :=
    snd (@sample libm_rational brdf_host ctx rough_values false false
           ScatteringMode.Diffuse smp) in
  let e :=
    @evaluate libm_rational rough_values false false up (m_shading_basis smp)
      (get_value (m_outgoing smp)) (get_value (m_incoming r))
      ScatteringMode.Diffuse zero_value in
  get_value (m_incoming r) = @drawn_incoming brdf_host ctx smp /\
  m_value r = snd e /\
  m_probability r == fst e.
Proof.
  apply (@sample_agrees_with_evaluate libm_rational brdf_host [mkVector2 0 0]
           rough_values false false up ScatteringMode.Diffuse (fresh_sample up)
           zero_value).
  - reflexivity.
  - vm_compute. repeat split.
  - vm_compute. discriminate.
  - intros _. vm_compute. discriminate.
Defined.


Lemma along_normal_value_is_nan_witness :
  let r :=
    @evaluate libm_rational rough_values false false up basis_up up tilted
      ScatteringMode.Diffuse zero_value in
  fst r = dot tilted (get_normal basis_up) * @RcpPi libm_rational /\
  Forall (fun v => v = None) (m_diffuse (snd r)) /\
  m_beauty (snd r) = m_diffuse (snd r) /\
  length (m_diffuse (snd r)) = length (m_reflectance rough_values).
Proof.
  apply (@along_normal_value_is_nan libm_rational rough_values false false up
           basis_up up tilted ScatteringMode.Diffuse zero_value).
  - reflexivity.
  - vm_compute. discriminate.
  - vm_compute. discriminate.
  - vm_compute. discriminate.
  - left. vm_compute. reflexivity.
Defined.

End OrenNayarFurtherRuns.

Section VoxelAOFurtherRuns.

Import Foundation VoxelAO Examples.
Local Open Scope Q_scope.

Lemma valid_thresholds_kept_witness :
  let r := @VoxelAOSurfaceShader ao_host "ao" valid_thresholds_params stale_memory in
  m_low_threshold (fst r) = 1 /\ m_high_threshold (fst r) = 3 /\ snd r = [].
Proof.
  apply (@valid_thresholds_kept ao_host "ao" valid_thresholds_params stale_memory).
  - vm_compute. discriminate.
  - vm_compute. discriminate.
Defined.

Lemma half_samples_bounds_witness :
  let s' := fst (@on_frame_begin ao_host unit_scene fresh) in
  (1 <= m_half_samples s')%N /\
  (2 <= m_samples fresh -> 2 * m_half_samples s' <= m_samples fresh)%N /\
  (m_samples fresh < 2 -> m_half_samples s' = 1)%N.
Proof.
  apply (@half_samples_bounds ao_host unit_scene fresh).
  left. vm_compute. discriminate.
Defined.

Lemma sentinel_versions_skip_build_witness :
  @on_frame_begin ao_host sentinel_scene fresh = (fresh, []) /\
  @evaluate ao_host (fst (@on_frame_begin ao_host sentinel_scene fresh))
    0%nat tt origin_point = None.
Proof.
  apply (@sentinel_versions_skip_build ao_host "ao" ∅ stale_memory
           sentinel_scene 0%nat tt origin_point); reflexivity.
Defined.

Lemma clear_normal_takes_fast_mode_witness :
  @evaluate ao_host built 0%nat tt origin_point
  = Some (1%nat, accessibility_result 0).
Proof.
  apply (@clear_normal_takes_fast_mode ao_host built 1 1 0%nat tt origin_point 0);
    reflexivity.
Defined.

Lemma evaluate_result_shape_witness :
  let res := accessibility_result 0 in
  m_color_space res = ColorSpaceLinearRGB /\ m_alpha res = 1 /\
  (m_enable_diagnostics built = false ->
   m_color0 res = m_color1 res /\ m_color1 res = m_color2 res).
Proof.
  apply (@evaluate_result_shape ao_host built 0%nat tt origin_point 1%nat).
  reflexivity.
Defined.

Lemma evaluate_channels_unit_witness :
  let res := accessibility_result 0 in
  @unit_channel (m_color0 res) /\ @unit_channel (m_color1 res) /\
  @unit_channel (m_color2 res).
Proof.
  apply (@evaluate_channels_unit ao_host built 0%nat tt origin_point 1%nat).
  - intros. split; vm_compute; discriminate.
  - intros. split; vm_compute; discriminate.
  - reflexivity.
Defined.

Lemma first_frame_establishes_thresholds_witness :
  0 <= m_classic_threshold built /\
  m_classic_threshold built <= m_fast_threshold built /\
  (exists tree, m_voxel_tree built = Some tree) /\
  (exists ti, m_voxel_tree_intersector built = Some ti).
Proof.
  apply (@first_frame_establishes_thresholds ao_host "ao" ∅ stale_memory unit_scene).
  - left. vm_compute. discriminate.
  - intros extent. vm_compute. discriminate.
Defined.

End VoxelAOFurtherRuns.

Section PixelVariationFurtherRuns.

Import Foundation PixelVariation Examples.
Local Open Scope Q_scope.

Lemma empty_window_untouched_witness :
  post_process_image empty_frame variance_image = variance_image.
Proof.
  apply (empty_window_untouched empty_frame variance_image).
  left. simpl. lia.
Defined.

(** The middle pixel of the row lies in the window of [row_frame]. *)
Lemma row_frame_holds (px : nat) :
  (px <= 2)%nat -> in_window (get_crop_window row_frame) px 0.
Proof. intros Hpx. unfold in_window. simpl. lia. Qed.

Lemma processed_pixel_on_gradient_witness :
  let out := get_pixel (post_process_image row_frame variance_image) 1 0 in
  c1 out == 0 /\ c0 out + c2 out == 1 /\ c0 out <= 1 /\
  (0 <= c0 out <-> 0 <= c0 (get_pixel variance_image 1 0)).
Proof.
  destruct (processed_pixel_on_gradient row_frame variance_image 1%nat 0%nat
              (row_frame_holds 1%nat ltac:(lia))) as (Hg & Hs & Hle & Hiff).
  intros out. split; [exact Hg|]. split; [exact Hs|]. split; [exact Hle|].
  apply Hiff. vm_compute. discriminate.
Defined.

Lemma larger_variation_is_redder_witness :
  let result := post_process_image row_frame variance_image in
  c0 (get_pixel result 1 0) <= c0 (get_pixel result 2 0) /\
  c2 (get_pixel result 2 0) <= c2 (get_pixel result 1 0).
Proof.
  apply (larger_variation_is_redder row_frame variance_image 1%nat 0%nat 2%nat 0%nat).
  - apply row_frame_holds. lia.
  - apply row_frame_holds. lia.
  - vm_compute. discriminate.
Defined.

(** The variations of [variance_image] are non-negative on the window. *)
Lemma variance_image_nonnegative (px py : nat) :
  in_window (get_crop_window row_frame) px py ->
  0 <= c0 (get_pixel variance_image px py).
Proof.
  intros Hin. apply row_frame_window in Hin as (-> & [->|[->| ->]]);
    vm_compute; discriminate.
Qed.

Lemma post_process_image_idempotent_witness :
  let once := post_process_image row_frame variance_image in
  let twice := post_process_image row_frame once in
  color_eq (get_pixel twice 1 0) (get_pixel once 1 0) /\
  twice !! (3, 0)%nat = once !! (3, 0)%nat.
Proof.
  destruct (post_process_image_idempotent row_frame variance_image
              variance_image_nonnegative) as [Hinside Houtside].
  split.
  - apply Hinside, row_frame_holds. lia.
  - apply Houtside. unfold in_window. simpl. lia.
Defined.

Lemma post_process_image_scale_invariant_witness :
  color_eq (get_pixel (post_process_image row_frame doubled_image) 1 0)
    (get_pixel (post_process_image row_frame variance_image) 1 0).
Proof.
  apply (post_process_image_scale_invariant row_frame variance_image
           doubled_image 2).
  - reflexivity.
  - intros px py Hin. apply row_frame_window in Hin as (-> & [->|[->| ->]]);
      vm_compute; reflexivity.
  - apply row_frame_holds. lia.
Defined.

Lemma uniform_variation_is_red_witness :
  color_eq (get_pixel (post_process_image row_frame uniform_image) 1 0) Red.
Proof.
  apply (uniform_variation_is_red row_frame uniform_image 0.5).
  - reflexivity.
  - intros px py Hin. apply row_frame_window in Hin as (-> & [->|[->| ->]]);
      vm_compute; reflexivity.
  - apply row_frame_holds. lia.
Defined.

Lemma post_process_image_first_channel_witness :
  get_pixel (post_process_image row_frame recoloured_image) 1 0
  = get_pixel (post_process_image row_frame variance_image) 1 0.
Proof.
  apply (post_process_image_first_channel row_frame variance_image
           recoloured_image).
  - intros px py Hin. apply row_frame_window in Hin as (-> & [->|[->| ->]]);
      reflexivity.
  - apply row_frame_holds. lia.
Defined.

End PixelVariationFurtherRuns.
